(** * Beds24 authentication manager: credential life cycle

    A shallow embedding of [beds24_auth_manager.py] (class
    [Beds24AuthManager]) and the properties of its token state machine.

    The Python code is untyped: every record is whatever [json.load]
    produced.  Values are therefore modelled by [pyval], exceptions by
    [exn], and each method is a function in a state-and-exception monad
    over [world], which holds the manager's three in-memory records, the
    files on disk, the log of HTTP calls and the number of clock reads.
    The surroundings (system clock, remote server, disk failures) and the
    library routines of [datetime] are parameters of the development. *)

From Stdlib Require Import ZArith Lia Bool List Ascii String Floats.
From stdpp Require Import base strings gmap.

Set Warnings "-register-all".
Local Open Scope string_scope.
Local Open Scope Z_scope.

(** ** Python values *)

(** What [json.load] and [response.json()] can return. *)
Inductive pyval : Type :=
| PNone
| PBool (b : bool)
| PInt (n : Z)
| PFloat (f : float)
| PStr (s : string)
| PList (l : list pyval)
| PDict (d : list (string * pyval)).

(** [bool(v)], the test behind [if v], [not v], [a and b]. *)
Definition truthy (v : pyval) : bool :=
  match v with
  | PNone => false
  | PBool b => b
  | PInt n => negb (n =? 0)
  | PFloat f => negb (f =? 0)%float
  | PStr s => negb (String.eqb s "")
  | PList l => match l with [] => false | _ :: _ => true end
  | PDict d => match d with [] => false | _ :: _ => true end
  end.

Fixpoint dict_lookup (k : string) (d : list (string * pyval)) : option pyval :=
  match d with
  | [] => None
  | (k', v) :: d' => if String.eqb k k' then Some v else dict_lookup k d'
  end.

(** ** Exceptions *)

Inductive exn : Type :=
| TypeError
| ValueError
| KeyError
| AttributeError
| OverflowError
| OSError
| JSONDecodeError
| UnicodeDecodeError
| RequestException
| HTTPError (status : Z).

Inductive outcome (A : Type) : Type :=
| Returned (a : A)
| Raised (e : exn).
Arguments Returned {A} a.
Arguments Raised {A} e.

(** [except (ValueError, TypeError)]; [JSONDecodeError] and
    [UnicodeDecodeError] are subclasses of [ValueError] in Python. *)
Definition is_ValueError_or_TypeError (e : exn) : bool :=
  match e with
  | TypeError | ValueError | JSONDecodeError | UnicodeDecodeError => true
  | _ => false
  end.

(** [except requests.exceptions.HTTPError]. *)
Definition is_HTTPError (e : exn) : bool :=
  match e with HTTPError _ => true | _ => false end.

(** [except IOError]. *)
Definition is_IOError (e : exn) : bool :=
  match e with OSError => true | _ => false end.

(** [except (json.JSONDecodeError, IOError)]. *)
Definition is_JSONDecodeError_or_IOError (e : exn) : bool :=
  match e with JSONDecodeError | OSError => true | _ => false end.

(** [except Exception]: every exception of the model. *)
Definition is_Exception (e : exn) : bool := true.

(** ** Operations on values *)

(** [k in v] for a string [k]. Numbers, booleans and [None] are not
    iterable. *)
Definition py_contains (k : string) (v : pyval) : outcome bool :=
  match v with
  | PDict d => Returned (match dict_lookup k d with Some _ => true | None => false end)
  | PList l =>
      Returned (existsb (fun x => match x with PStr s => String.eqb s k | _ => false end) l)
  | PStr s => Returned (match String.index 0 k s with Some _ => true | None => false end)
  | _ => Raised TypeError
  end.

(** [v[k]] for a string [k]. *)
Definition py_getitem (v : pyval) (k : string) : outcome pyval :=
  match v with
  | PDict d => match dict_lookup k d with Some x => Returned x | None => Raised KeyError end
  | _ => Raised TypeError
  end.

(** [v.get(k, default)]: only dictionaries have the method. *)
Definition py_get (v : pyval) (k : string) (default : pyval) : outcome pyval :=
  match v with
  | PDict d => Returned (match dict_lookup k d with Some x => x | None => default end)
  | _ => Raised AttributeError
  end.

(** ** Dates *)

(** A [datetime]: the wall-clock reading in microseconds since
    0001-01-01T00:00:00 and the UTC offset in microseconds ([None] for a
    naive value). *)
Record datetime : Type := mk_datetime { dt_wall : Z; dt_tzinfo : option Z }.

(** One past [datetime.max], in microseconds. *)
Definition DATETIME_END : Z := 3652059 * 86400 * 1000000.

(** Largest magnitude of a [timedelta], in days. *)
Definition TIMEDELTA_MAX_DAYS : Z := 999999999.

Definition US_PER_SECOND : Z := 1000000.
Definition US_PER_DAY : Z := 86400 * 1000000.

Definition replace_tzinfo_utc (d : datetime) : datetime :=
  {| dt_wall := dt_wall d; dt_tzinfo := Some 0 |}.

(** The instant denoted by a value, a naive one being read as UTC. *)
Definition utc_instant (d : datetime) : Z :=
  dt_wall d - match dt_tzinfo d with Some off => off | None => 0 end.

(** [a < b]: aware values compare by instant, naive ones by wall clock,
    and mixing the two is a [TypeError]. *)
Definition datetime_lt (a b : datetime) : outcome bool :=
  match dt_tzinfo a, dt_tzinfo b with
  | Some oa, Some ob => Returned (dt_wall a - oa <? dt_wall b - ob)
  | None, None => Returned (dt_wall a <? dt_wall b)
  | _, _ => Raised TypeError
  end.

(** [d + timedelta]: the result has to stay within [datetime.min] and
    [datetime.max]. *)
Definition datetime_add (d : datetime) (td : Z) : outcome datetime :=
  let w := dt_wall d + td in
  if (0 <=? w) && (w <? DATETIME_END)
  then Returned {| dt_wall := w; dt_tzinfo := dt_tzinfo d |}
  else Raised OverflowError.

Definition timedelta_in_range (us : Z) : bool :=
  (- TIMEDELTA_MAX_DAYS * US_PER_DAY <=? us) && (us <? (TIMEDELTA_MAX_DAYS + 1) * US_PER_DAY).

(** ** The manager and its surroundings *)

Record manager : Type := mk_manager {
  invite_code_data : pyval;
  refresh_token_data : pyval;
  auth_token_data : pyval
}.

Inductive url : Type := SETUP_URL | TOKEN_URL | DETAILS_URL.

Record request : Type := mk_request {
  req_url : url;
  req_headers : list (string * pyval)
}.

(** What [requests.get] comes back with: a transport failure (connection
    error, timeout, rejected header, ...) or a response with its status
    and, when the body is JSON, the decoded body.  [HTTPError] is raised
    by [raise_for_status] only, never by the transport. *)
Inductive net_result : Type :=
| NetError
| NetResponse (status : Z) (json : option pyval).

Record response : Type := mk_response {
  status_code : Z;
  body_json : option pyval
}.

(** A file on disk: decodable JSON, an empty file, text that
    [json.load] rejects, a file that cannot be opened for reading, or
    bytes that are not text in the encoding [open] reads with. *)
Inductive file : Type :=
| FJson (v : pyval)
| FEmpty
| FMalformed
| FUnreadable
| FUndecodable.

Definition INVITE_CODE_FILE : string := "beds24_invite_code.json".
Definition REFRESH_TOKEN_FILE : string := "beds24_refresh_token.json".
Definition AUTH_TOKEN_FILE : string := "beds24_auth_token.json".

Record world : Type := mk_world {
  self : manager;
  fs : gmap string file;
  net_log : list request;
  ticks : nat;
  disk_ops : nat
}.

Definition set_auth_token_data (v : pyval) (w : world) : world :=
  {| self := {| invite_code_data := invite_code_data (self w);
                refresh_token_data := refresh_token_data (self w);
                auth_token_data := v |};
     fs := fs w; net_log := net_log w; ticks := ticks w; disk_ops := disk_ops w |}.

Definition set_fs (f : gmap string file) (w : world) : world :=
  {| self := self w; fs := f; net_log := net_log w; ticks := ticks w;
     disk_ops := disk_ops w |}.

Definition log_request (rq : request) (w : world) : world :=
  {| self := self w; fs := fs w; net_log := net_log w ++ [rq]; ticks := ticks w;
     disk_ops := disk_ops w |}.

Definition tick (w : world) : world :=
  {| self := self w; fs := fs w; net_log := net_log w; ticks := S (ticks w);
     disk_ops := disk_ops w |}.

Definition count_disk_op (w : world) : world :=
  {| self := self w; fs := fs w; net_log := net_log w; ticks := ticks w;
     disk_ops := S (disk_ops w) |}.

(** ** The monad of methods *)

Definition M (A : Type) : Type := world -> outcome A * world.

Definition ret {A} (a : A) : M A := fun w => (Returned a, w).

Definition raise {A} (e : exn) : M A := fun w => (Raised e, w).

Definition bind {A B} (m : M A) (k : A -> M B) : M B :=
  fun w =>
    match m w with
    | (Returned a, w') => k a w'
    | (Raised e, w') => (Raised e, w')
    end.

(** A pure computation that may raise. *)
Definition lift {A} (o : outcome A) : M A := fun w => (o, w).

(** [try: body  except <classes>: handler]; other exceptions pass
    through. Effects of the body before the exception stay. *)
Definition try_except {A} (body : M A) (catches : exn -> bool) (handler : exn -> M A) : M A :=
  fun w =>
    match body w with
    | (Returned a, w') => (Returned a, w')
    | (Raised e, w') => if catches e then handler e w' else (Raised e, w')
    end.

(** [try ... except c1 ... except c2 ...]: the first clause that matches
    handles the exception; what a handler raises is not handled again. *)
Definition try_except2 {A} (body : M A)
    (catches1 : exn -> bool) (handler1 : exn -> M A)
    (catches2 : exn -> bool) (handler2 : exn -> M A) : M A :=
  fun w =>
    match body w with
    | (Returned a, w') => (Returned a, w')
    | (Raised e, w') =>
        if catches1 e then handler1 e w'
        else if catches2 e then handler2 e w'
        else (Raised e, w')
    end.

Declare Scope py_scope.
Delimit Scope py_scope with py.
Notation "x <- m ;; k" := (bind m (fun x => k))
  (at level 100, m at next level, right associativity) : py_scope.
Notation "m ;;; k" := (bind m (fun _ => k))
  (at level 100, right associativity) : py_scope.
Local Open Scope py_scope.

(** ** The methods of [Beds24AuthManager] *)

Section Beds24AuthManager.

(** The surroundings: the reading of the system clock at its k-th
    consultation (microseconds since 0001-01-01T00:00:00 UTC), the
    server's answer to a request given the requests sent before it, and
    whether the k-th write or removal on disk goes through, and what a
    write that fails leaves behind: [None] when the file could not be
    opened and is as it was, [Some f] when it had been opened, hence
    emptied, and [f] is what had reached it when the error came. *)
Variable clock : nat -> Z.
Variable remote : list request -> request -> net_result.
Variable disk : nat -> bool.
Variable torn : nat -> option file.

(** Library routines: [datetime.fromisoformat] on a string ([None] for
    a [ValueError]), [datetime.isoformat], and the number of
    microseconds in [timedelta(unit=f)] for a float [f] ([None] when it
    is not a finite number). *)
Variable fromisoformat : string -> option datetime.
Variable isoformat : datetime -> string.
Variable float_microseconds : Z -> float -> option Z.

(** [datetime.now(timezone.utc)] *)
Definition datetime_now_utc : M datetime :=
  fun w => (Returned {| dt_wall := clock (ticks w); dt_tzinfo := Some 0 |}, tick w).

(** [datetime.fromisoformat(v)]: a [TypeError] unless [v] is a string. *)
Definition datetime_fromisoformat (v : pyval) : outcome datetime :=
  match v with
  | PStr s =>
      match fromisoformat s with
      | Some d => Returned d
      | None => Raised ValueError
      end
  | _ => Raised TypeError
  end.

(** [timedelta(seconds=v)] and [timedelta(days=v)], in microseconds;
    [unit] is the length of the unit. *)
Definition timedelta (unit : Z) (v : pyval) : outcome Z :=
  let checked us := if timedelta_in_range us then Returned us else Raised OverflowError in
  match v with
  | PInt n => checked (n * unit)
  | PBool b => checked ((if b then 1 else 0) * unit)
  | PFloat f =>
      match float_microseconds unit f with
      | Some us => checked us
      | None => Raised ValueError
      end
  | _ => Raised TypeError
  end.

(** [requests.get(url, headers=headers)] *)
Definition requests_get (u : url) (headers : list (string * pyval)) : M response :=
  fun w =>
    let rq := {| req_url := u; req_headers := headers |} in
    match remote (net_log w) rq with
    | NetError => (Raised RequestException, log_request rq w)
    | NetResponse st b =>
        (Returned {| status_code := st; body_json := b |}, log_request rq w)
    end.

(** [response.raise_for_status()]: 4xx and 5xx raise. *)
Definition raise_for_status (r : response) : M unit :=
  if (400 <=? status_code r) && (status_code r <? 600)
  then raise (HTTPError (status_code r))
  else ret tt.

(** [response.json()] *)
Definition response_json (r : response) : M pyval :=
  match body_json r with
  | Some v => ret v
  | None => raise JSONDecodeError
  end.

(** [with open(filename, 'w') as f: json.dump(data, f, indent=2)].
    Opening for writing empties the file before anything is dumped, so a
    write that fails after the file was opened leaves it with what had
    been written by then and not with its old content. *)
Definition open_and_dump (filename : string) (data : pyval) : M unit :=
  fun w =>
    if disk (disk_ops w)
    then (Returned tt, count_disk_op (set_fs (<[filename := FJson data]> (fs w)) w))
    else
      match torn (disk_ops w) with
      | Some f => (Raised OSError, count_disk_op (set_fs (<[filename := f]> (fs w)) w))
      | None => (Raised OSError, count_disk_op w)
      end.

(** [with open(filename, 'r') as f: return json.load(f)] on a file that
    exists and is not empty. *)
Definition open_and_load (content : file) : M pyval :=
  match content with
  | FJson v => ret v
  | FEmpty | FMalformed => raise JSONDecodeError
  | FUnreadable => raise OSError
  | FUndecodable => raise UnicodeDecodeError
  end.

(** [os.path.exists(filename)] *)
Definition os_path_exists (filename : string) : M bool :=
  fun w => (Returned (match fs w !! filename with Some _ => true | None => false end), w).

(** [os.remove(filename)] *)
Definition os_remove (filename : string) : M unit :=
  fun w =>
    if disk (disk_ops w)
    then (Returned tt, count_disk_op (set_fs (delete filename (fs w)) w))
    else (Raised OSError, count_disk_op w).

Definition get_self : M manager := fun w => (Returned (self w), w).

(** [os.path.getsize(filename) > 0] *)
Definition os_path_getsize_positive (filename : string) : M bool :=
  fun w =>
    (Returned (match fs w !! filename with Some FEmpty | None => false | Some _ => true end),
     w).

(** [_load_file]: the decoded content, or an empty dictionary when the
    file is missing or empty, when it cannot be opened and when its text
    is not JSON.  Bytes that are not text raise [UnicodeDecodeError],
    which the [except] clause does not name. *)
Definition _load_file (filename : string) : M pyval :=
  present <- os_path_exists filename ;;
  nonempty <- (if present then os_path_getsize_positive filename else ret false) ;;
  if nonempty then
    try_except
      (fun w =>
         match fs w !! filename with
         | Some content => open_and_load content w
         | None => raise OSError w  (* [FileNotFoundError] *)
         end)
      is_JSONDecodeError_or_IOError
      (fun _ => ret (PDict []))
  else ret (PDict []).

(** [__init__] *)
Definition __init__ : M unit :=
  invite <- _load_file INVITE_CODE_FILE ;;
  refresh <- _load_file REFRESH_TOKEN_FILE ;;
  auth <- _load_file AUTH_TOKEN_FILE ;;
  fun w =>
    (Returned tt,
     {| self := {| invite_code_data := invite; refresh_token_data := refresh;
                   auth_token_data := auth |};
        fs := fs w; net_log := net_log w; ticks := ticks w; disk_ops := disk_ops w |}).

(** [_save_file] *)
Definition _save_file (filename : string) (data : pyval) : M bool :=
  try_except
    (open_and_dump filename data ;;; ret true)
    is_IOError
    (fun _ => ret false).

(** [_has_not_expired] *)
Definition _has_not_expired (data : pyval) : M bool :=
  if negb (truthy data) then ret false else
  missing <- lift (match py_contains "expiration" data with
                   | Returned b => Returned (negb b)
                   | Raised e => Raised e
                   end) ;;
  if missing then ret false else
  try_except
    (v <- lift (py_getitem data "expiration") ;;
     expiration_date <- lift (datetime_fromisoformat v) ;;
     let expiration_date :=
       match dt_tzinfo expiration_date with
       | None => replace_tzinfo_utc expiration_date
       | Some _ => expiration_date
       end in
     now <- datetime_now_utc ;;
     lift (datetime_lt now expiration_date))
    is_ValueError_or_TypeError
    (fun _ => ret false).

(** [_get_token_details] *)
Definition _get_token_details (token : pyval) : M pyval :=
  let headers := [("accept", PStr "application/json"); ("token", token)] in
  try_except
    (response <- requests_get DETAILS_URL headers ;;
     if status_code response =? 200 then response_json response else ret PNone)
    is_Exception
    (fun _ => ret PNone).

(** [validate_token] *)
Definition validate_token (token : pyval) : M bool :=
  details <- _get_token_details token ;;
  if truthy details then
    v <- lift (py_get details "validToken" (PBool false)) ;;
    if truthy v then ret true else ret false
  else ret false.

(** [setup_with_invite_code]; [expiration_days] defaults to 30. *)
Definition setup_with_invite_code (invite_code expiration_days : pyval) : M bool :=
  if negb (truthy invite_code) then ret false else
  let headers := [("accept", PStr "application/json"); ("code", invite_code)] in
  try_except
    (response <- requests_get SETUP_URL headers ;;
     raise_for_status response ;;;
     token_data <- response_json response ;;
     expires_in <- lift (py_get token_data "expiresIn" (PInt 86400)) ;;
     current_utc <- datetime_now_utc ;;
     seconds <- lift (timedelta US_PER_SECOND expires_in) ;;
     auth_expiration <- lift (datetime_add current_utc seconds) ;;
     days <- lift (timedelta US_PER_DAY expiration_days) ;;
     refresh_expiration <- lift (datetime_add current_utc days) ;;
     token <- lift (py_getitem token_data "token") ;;
     let auth_data :=
       PDict [("access_token", token);
              ("created", PStr (isoformat current_utc));
              ("expiration", PStr (isoformat auth_expiration))] in
     _save_file AUTH_TOKEN_FILE auth_data ;;;
     refresh_token <- lift (py_getitem token_data "refreshToken") ;;
     let refresh_data :=
       PDict [("refresh_token", refresh_token);
              ("created", PStr (isoformat current_utc));
              ("expiration", PStr (isoformat refresh_expiration))] in
     _save_file REFRESH_TOKEN_FILE refresh_data ;;;
     present <- os_path_exists INVITE_CODE_FILE ;;
     (if present then os_remove INVITE_CODE_FILE else ret tt) ;;;
     ret true)
    is_Exception
    (fun _ => ret false).

Definition expiration_days_default : pyval := PInt 30.

(** [refresh_auth_token].  In the handler of [HTTPError] the status 401
    only selects the message that is printed. *)
Definition refresh_auth_token : M bool :=
  me <- get_self ;;
  no_valid_refresh <-
    (if negb (truthy (refresh_token_data me)) then ret true else
     b <- _has_not_expired (refresh_token_data me) ;; ret (negb b)) ;;
  if no_valid_refresh then ret false else
  refresh_token <- lift (py_get (refresh_token_data me) "refresh_token" PNone) ;;
  if negb (truthy refresh_token) then ret false else
  let headers := [("accept", PStr "application/json"); ("refreshToken", refresh_token)] in
  try_except2
    (response <- requests_get TOKEN_URL headers ;;
     raise_for_status response ;;;
     token_data <- response_json response ;;
     has_token <- lift (py_contains "token" token_data) ;;
     if negb has_token then ret false else
     expires_in <- lift (py_get token_data "expiresIn" (PInt 86400)) ;;
     current_utc <- datetime_now_utc ;;
     seconds <- lift (timedelta US_PER_SECOND expires_in) ;;
     expiration <- lift (datetime_add current_utc seconds) ;;
     token <- lift (py_getitem token_data "token") ;;
     let auth_data :=
       PDict [("access_token", token);
              ("created", PStr (isoformat current_utc));
              ("expiration", PStr (isoformat expiration))] in
     _save_file AUTH_TOKEN_FILE auth_data ;;;
     (fun w => (Returned tt, set_auth_token_data auth_data w)) ;;;
     new_token <- lift (py_getitem auth_data "access_token") ;;
     valid <- validate_token new_token ;;
     if valid then ret true else ret false)
    is_HTTPError
    (fun e =>
       match e with
       | HTTPError status => if status =? 401 then ret false else ret false
       | _ => ret false
       end)
    is_Exception
    (fun _ => ret false).

(** [get_valid_token] *)
Definition get_valid_token : M pyval :=
  me <- get_self ;;
  have_auth <-
    (if truthy (auth_token_data me) then _has_not_expired (auth_token_data me)
     else ret false) ;;
  if have_auth then lift (py_get (auth_token_data me) "access_token" PNone) else
  have_refresh <-
    (if truthy (refresh_token_data me) then _has_not_expired (refresh_token_data me)
     else ret false) ;;
  refreshed <- (if have_refresh then refresh_auth_token else ret false) ;;
  if refreshed then
    me' <- get_self ;;
    lift (py_get (auth_token_data me') "access_token" PNone)
  else ret PNone.

(** [a and f(a)] and [a and not f(a)] as they stand in
    [check_token_status]: the operand itself when it is falsy. *)
Definition and_has_not_expired (negate : bool) (data : pyval) : M pyval :=
  if truthy data then
    b <- _has_not_expired data ;;
    ret (PBool (if negate then negb b else b))
  else ret data.

Definition status_of (data : pyval) : M pyval :=
  let exists_ := PBool (truthy data) in
  valid <- and_has_not_expired false data ;;
  expired <- and_has_not_expired true data ;;
  ret (PDict [("exists", exists_); ("valid", valid); ("expired", expired)]).

(** [check_token_status] *)
Definition check_token_status : M pyval :=
  me <- get_self ;;
  auth <- status_of (auth_token_data me) ;;
  refresh <- status_of (refresh_token_data me) ;;
  invite <- status_of (invite_code_data me) ;;
  ret (PDict [("auth_token", auth); ("refresh_token", refresh); ("invite_code", invite)]).

End Beds24AuthManager.

(** ** An instance of the library routines

    [datetime.isoformat] and [datetime.fromisoformat] restricted to the
    layout the manager itself writes and reads back,
    [YYYY-MM-DDTHH:MM:SS[.ffffff][+HH:MM]], on the proleptic Gregorian
    calendar.  The properties below hold for any routines; this instance
    serves the worked examples. *)

Module Calendar.

Definition is_leap (y : Z) : bool :=
  (y mod 4 =? 0) && (negb (y mod 100 =? 0) || (y mod 400 =? 0)).

Definition days_in_month (y m : Z) : Z :=
  if m =? 2 then (if is_leap y then 29 else 28)
  else if (m =? 4) || (m =? 6) || (m =? 9) || (m =? 11) then 30 else 31.

Definition days_before_year (y : Z) : Z :=
  let p := y - 1 in p * 365 + p / 4 - p / 100 + p / 400.

Fixpoint days_before_month_aux (y : Z) (months : nat) : Z :=
  match months with
  | O => 0
  | S k => days_before_month_aux y k + days_in_month y (Z.of_nat (S k))
  end.

(** Days of year [y] before the first of month [m]. *)
Definition days_before_month (y m : Z) : Z :=
  days_before_month_aux y (Z.to_nat (m - 1)).

(** Ordinal of a date, 0001-01-01 being day 1. *)
Definition ymd2ord (y m d : Z) : Z :=
  days_before_year y + days_before_month y m + d.

(** Year, month and day of an ordinal. *)
Definition ord2ymd (n : Z) : Z * Z * Z :=
  let n := n - 1 in
  let n400 := n / 146097 in let n := n mod 146097 in
  let n100 := n / 36524 in let n := n mod 36524 in
  let n4 := n / 1461 in let n := n mod 1461 in
  let n1 := n / 365 in let n := n mod 365 in
  let year := n400 * 400 + 1 + n100 * 100 + n4 * 4 + n1 in
  if (n1 =? 4) || (n100 =? 4) then (year - 1, 12, 31) else
  let month := Z.shiftr (n + 50) 5 in
  let preceding := days_before_month year month in
  if n <? preceding
  then (year, month - 1, n - (preceding - days_in_month year (month - 1)) + 1)
  else (year, month, n - preceding + 1).

Definition digit_char (d : Z) : ascii := Ascii.ascii_of_nat (48 + Z.to_nat d).

(** [n] written with [width] decimal digits, zero padded. *)
Fixpoint zero_padded (width : nat) (n : Z) : string :=
  match width with
  | O => ""
  | S k => zero_padded k (n / 10) ++ String (digit_char (n mod 10)) ""
  end.

Definition offset_suffix (off : Z) : string :=
  let sign := if off <? 0 then "-" else "+" in
  let minutes := Z.abs off / 60000000 in
  sign ++ zero_padded 2 (minutes / 60) ++ ":" ++ zero_padded 2 (minutes mod 60).

Definition isoformat (d : datetime) : string :=
  let day := dt_wall d / US_PER_DAY in
  let rest := dt_wall d mod US_PER_DAY in
  let '(y, m, dd) := ord2ymd (day + 1) in
  let secs := rest / US_PER_SECOND in
  let us := rest mod US_PER_SECOND in
  zero_padded 4 y ++ "-" ++ zero_padded 2 m ++ "-" ++ zero_padded 2 dd ++ "T"
    ++ zero_padded 2 (secs / 3600) ++ ":" ++ zero_padded 2 (secs / 60 mod 60) ++ ":"
    ++ zero_padded 2 (secs mod 60)
    ++ (if us =? 0 then "" else "." ++ zero_padded 6 us)
    ++ match dt_tzinfo d with Some off => offset_suffix off | None => "" end.

Definition digit_value (c : ascii) : option Z :=
  let n := Z.of_nat (Ascii.nat_of_ascii c) in
  if (48 <=? n) && (n <=? 57) then Some (n - 48) else None.

(** Reads exactly [count] digits. *)
Fixpoint read_digits (count : nat) (acc : Z) (l : list ascii) : option (Z * list ascii) :=
  match count with
  | O => Some (acc, l)
  | S k =>
      match l with
      | c :: l' =>
          match digit_value c with
          | Some d => read_digits k (acc * 10 + d) l'
          | None => None
          end
      | [] => None
      end
  end.

Definition read_char (c : ascii) (l : list ascii) : option (list ascii) :=
  match l with
  | c' :: l' => if Ascii.eqb c c' then Some l' else None
  | [] => None
  end.

(** [HH:MM] after a sign, as microseconds. *)
Definition read_offset (l : list ascii) : option (option Z) :=
  match l with
  | [] => Some None
  | c :: l1 =>
      let sign := if Ascii.eqb c "+" then Some 1 else if Ascii.eqb c "-" then Some (-1) else None in
      match sign with
      | None => None
      | Some sg =>
          '(h, l2) ← read_digits 2 0 l1;
          l3 ← read_char ":" l2;
          '(mi, l4) ← read_digits 2 0 l3;
          match l4 with
          | [] => if (h <? 24) && (mi <? 60)
                  then Some (Some (sg * (h * 60 + mi) * 60000000)) else None
          | _ :: _ => None
          end
      end
  end.

Definition read_fraction (l : list ascii) : option (Z * list ascii) :=
  match l with
  | c :: l' => if Ascii.eqb c "." then read_digits 6 0 l' else Some (0, l)
  | [] => Some (0, l)
  end.

Definition fromisoformat (s : string) : option datetime :=
  '(y, l) ← read_digits 4 0 (list_ascii_of_string s);
  l ← read_char "-" l;
  '(m, l) ← read_digits 2 0 l;
  l ← read_char "-" l;
  '(d, l) ← read_digits 2 0 l;
  l ← read_char "T" l;
  '(h, l) ← read_digits 2 0 l;
  l ← read_char ":" l;
  '(mi, l) ← read_digits 2 0 l;
  l ← read_char ":" l;
  '(sec, l) ← read_digits 2 0 l;
  '(us, l) ← read_fraction l;
  off ← read_offset l;
  if (1 <=? y) && (1 <=? m) && (m <=? 12) && (1 <=? d) && (d <=? days_in_month y m)
     && (h <? 24) && (mi <? 60) && (sec <? 60)
  then Some {| dt_wall := (ymd2ord y m d - 1) * US_PER_DAY
                          + ((h * 60 + mi) * 60 + sec) * US_PER_SECOND + us;
               dt_tzinfo := off |}
  else None.

(** [timedelta(unit=f)] for the floats used in the examples: none. *)
Definition float_microseconds (unit : Z) (f : float) : option Z := None.

End Calendar.

(** ** Specification-level notions *)

(** A record on which [_has_not_expired] can test membership: a falsy
    value, or a dictionary, list or string.  A truthy number or [True]
    makes ['expiration' not in data] raise [TypeError] outside the [try]. *)
Definition inspectable (data : pyval) : bool :=
  negb (truthy data) ||
  match data with PDict _ | PList _ | PStr _ => true | _ => false end.

Definition details_request (token : pyval) : request :=
  {| req_url := DETAILS_URL;
     req_headers := [("accept", PStr "application/json"); ("token", token)] |}.

Definition token_request (refresh_token : pyval) : request :=
  {| req_url := TOKEN_URL;
     req_headers := [("accept", PStr "application/json"); ("refreshToken", refresh_token)] |}.

Definition setup_request (invite_code : pyval) : request :=
  {| req_url := SETUP_URL;
     req_headers := [("accept", PStr "application/json"); ("code", invite_code)] |}.

(** The requests one call of [refresh_auth_token] can send: none, the
    refresh request alone, or the refresh request followed by the
    validation of the new token. *)
Definition refresh_traffic (l : list request) : Prop :=
  l = [] \/
  (exists rt, l = [token_request rt]) \/
  (exists rt tok, l = [token_request rt; details_request tok]).

(** The same, told by the state the call starts in and by the server:
    the refresh request carries the refresh token of the RefreshRecord,
    and the validation is sent only after an answer to it that is not a
    4xx or 5xx and whose body holds [token], for that very token.
    [history] is the log of requests before the call. *)
Definition refresh_exchange (remote : list request -> request -> net_result)
    (refresh : pyval) (history l : list request) : Prop :=
  l = [] \/
  exists rt,
    py_get refresh "refresh_token" PNone = Returned rt
    /\ truthy rt = true
    /\ (l = [token_request rt]
        \/ exists st td tok,
             remote history (token_request rt) = NetResponse st (Some (PDict td))
             /\ (400 <=? st) && (st <? 600) = false
             /\ dict_lookup "token" td = Some tok
             /\ l = [token_request rt; details_request tok]).

(** What [_get_token_details] makes of the server's answer: the decoded
    body of a response with status 200, [None] otherwise. *)
Definition details_of (r : net_result) : pyval :=
  match r with
  | NetResponse st (Some v) => if st =? 200 then v else PNone
  | _ => PNone
  end.

(** What [validate_token] makes of the details. *)
Definition verdict_of (details : pyval) : outcome bool :=
  if truthy details then
    match py_get details "validToken" (PBool false) with
    | Returned v => Returned (truthy v)
    | Raised e => Raised e
    end
  else Returned false.

Section Validity.

Variable fromisoformat : string -> option datetime.

(** The instant at which a record expires: its [expiration] field read
    as a timestamp, a timezone-less one as UTC. *)
Definition expiration_of (record : pyval) : option Z :=
  match record with
  | PDict d =>
      match dict_lookup "expiration" d with
      | Some v =>
          match datetime_fromisoformat fromisoformat v with
          | Returned dt => Some (utc_instant dt)
          | Raised _ => None
          end
      | None => None
      end
  | _ => None
  end.

(** [isValid] as the specification words it. *)
Definition isValid (now : Z) (record : pyval) : bool :=
  match expiration_of record with
  | Some expiration => now <? expiration
  | None => false
  end.

(** The state [_has_not_expired] leaves behind on a record: the clock
    has been read once if the expiration parsed. *)
Definition after_check (record : pyval) (w : world) : world :=
  match expiration_of record with
  | Some _ => tick w
  | None => w
  end.

End Validity.

(** The access token a record holds, [None] when it holds none. *)
Definition access_token_of (record : pyval) : pyval :=
  match record with
  | PDict d => match dict_lookup "access_token" d with Some t => t | None => PNone end
  | _ => PNone
  end.

(** The AccessRecord built from a token and two timestamps. *)
Definition access_record (token : pyval) (created expiration : string) : pyval :=
  PDict [("access_token", token); ("created", PStr created); ("expiration", PStr expiration)].

(** The RefreshRecord built from a token and two timestamps. *)
Definition refresh_record (token : pyval) (created expiration : string) : pyval :=
  PDict [("refresh_token", token); ("created", PStr created); ("expiration", PStr expiration)].

Definition utc (wall : Z) : datetime := {| dt_wall := wall; dt_tzinfo := Some 0 |}.

(** What [check_token_status] promises of one entry: [expired] is
    [exists and not valid], read as truth values, and a record that does
    not exist is neither valid nor expired. *)
Definition status_consistent (exists_ : bool) (valid expired : pyval) : Prop :=
  truthy expired = exists_ && negb (truthy valid)
  /\ (exists_ = false -> truthy valid = false /\ truthy expired = false).

Definition status_entry (exists_ : bool) (valid expired : pyval) : pyval :=
  PDict [("exists", PBool exists_); ("valid", valid); ("expired", expired)].

(** ** Worked scenarios

    Concrete surroundings for the examples: the clock stands at
    2026-11-03T10:20:30 UTC, the disk works, and the server answers as
    each scenario says. *)

Module Scenario.

(** 2026-11-03T10:20:30 UTC. *)
Definition now : Z := 63929298030000000.

Definition steady_clock (k : nat) : Z := now.

(** Each reading is one microsecond after the one before. *)
Definition ticking_clock (k : nat) : Z := now + Z.of_nat k.

Definition disk_ok (k : nat) : bool := true.

(** No write fails there, so none leaves a file half written. *)
Definition untorn (k : nat) : option file := None.

Definition stale_access : pyval :=
  access_record (PStr "old-access") "2026-11-01T10:00:00+00:00" "2026-11-02T10:00:00+00:00".

Definition fresh_access : pyval :=
  access_record (PStr "cached-access") "2026-11-03T10:00:00+00:00" "2026-11-04T10:00:00+00:00".

(** Expires one microsecond after [now]. *)
Definition closing_access : pyval :=
  access_record (PStr "closing-access") "2026-11-02T10:20:30.000001+00:00"
    "2026-11-03T10:20:30.000001+00:00".

Definition fresh_refresh : pyval :=
  refresh_record (PStr "refresh-1") "2026-10-20T00:00:00+00:00" "2026-11-19T00:00:00+00:00".

Definition stale_refresh : pyval :=
  refresh_record (PStr "refresh-0") "2026-09-20T00:00:00+00:00" "2026-10-20T00:00:00+00:00".

Definition world_of (invite refresh auth : pyval) : world :=
  {| self := {| invite_code_data := invite; refresh_token_data := refresh;
                auth_token_data := auth |};
     fs := ∅; net_log := []; ticks := O; disk_ops := O |}.

(** A server that renews tokens and confirms them. *)
Definition remote_ok (history : list request) (rq : request) : net_result :=
  match req_url rq with
  | SETUP_URL =>
      NetResponse 200
        (Some (PDict [("token", PStr "access-1"); ("refreshToken", PStr "refresh-1");
                      ("expiresIn", PInt 3600)]))
  | TOKEN_URL =>
      NetResponse 200 (Some (PDict [("token", PStr "access-2"); ("expiresIn", PInt 3600)]))
  | DETAILS_URL => NetResponse 200 (Some (PDict [("validToken", PBool true)]))
  end.

(** A server that renews tokens but then reports them as not valid. *)
Definition remote_disowns (history : list request) (rq : request) : net_result :=
  match req_url rq with
  | DETAILS_URL => NetResponse 200 (Some (PDict [("validToken", PBool false)]))
  | _ => remote_ok history rq
  end.

(** A server whose details endpoint answers 201 Created. *)
Definition remote_201 (history : list request) (rq : request) : net_result :=
  match req_url rq with
  | DETAILS_URL => NetResponse 201 (Some (PDict [("validToken", PBool true)]))
  | _ => remote_ok history rq
  end.

(** A server whose setup answer lacks [refreshToken]. *)
Definition remote_no_refresh_token (history : list request) (rq : request) : net_result :=
  match req_url rq with
  | SETUP_URL => NetResponse 200 (Some (PDict [("token", PStr "access-1")]))
  | _ => remote_ok history rq
  end.

(** A server whose setup answer omits [expiresIn]. *)
Definition remote_no_expires_in (history : list request) (rq : request) : net_result :=
  match req_url rq with
  | SETUP_URL =>
      NetResponse 200
        (Some (PDict [("token", PStr "access-1"); ("refreshToken", PStr "refresh-1")]))
  | _ => remote_ok history rq
  end.

Definition unreachable (history : list request) (rq : request) : net_result := NetError.

(** The methods under the calendar instance and a working disk. *)
Definition run_get_valid_token clock remote : M pyval :=
  get_valid_token clock remote disk_ok untorn Calendar.fromisoformat
    Calendar.isoformat Calendar.float_microseconds.

Definition run_refresh_auth_token clock remote : M bool :=
  refresh_auth_token clock remote disk_ok untorn Calendar.fromisoformat
    Calendar.isoformat Calendar.float_microseconds.

Definition run_setup_with_invite_code clock remote (invite_code : pyval) : M bool :=
  setup_with_invite_code clock remote disk_ok untorn Calendar.isoformat
    Calendar.float_microseconds invite_code expiration_days_default.

Definition run_check_token_status clock : M pyval :=
  check_token_status clock Calendar.fromisoformat.

(** A manager built before any token file exists. *)
Definition blank : world := world_of (PDict []) (PDict []) (PDict []).

(** A manager whose access token has expired and whose refresh token is
    still good. *)
Definition renewable : world := world_of (PDict []) fresh_refresh stale_access.

(** A manager whose two tokens have both expired. *)
Definition lapsed : world := world_of (PDict []) stale_refresh stale_access.

(** A manager whose access token is about to expire. *)
Definition closing : world := world_of (PDict []) (PDict []) closing_access.

End Scenario.

(** ** Notions for the further properties *)

(** All that a token call may change: the in-memory AccessRecord, the
    access token's file, the request log and the counters. *)
Definition only_access_record_touched (w w' : world) : Prop :=
  invite_code_data (self w') = invite_code_data (self w)
  /\ refresh_token_data (self w') = refresh_token_data (self w)
  /\ forall k, k <> AUTH_TOKEN_FILE -> fs w' !! k = fs w !! k.

(** The access token's file holds the in-memory AccessRecord. *)
Definition access_record_in_step (w : world) : Prop :=
  fs w !! AUTH_TOKEN_FILE = Some (FJson (auth_token_data (self w))).

Section AfterStatus.

Variable fromisoformat : string -> option datetime.

(** The state [check_token_status] leaves behind: each record has been
    checked twice. *)
Definition after_status (w : world) : world :=
  let a := auth_token_data (self w) in
  let r := refresh_token_data (self w) in
  let i := invite_code_data (self w) in
  after_check fromisoformat i (after_check fromisoformat i
    (after_check fromisoformat r (after_check fromisoformat r
      (after_check fromisoformat a (after_check fromisoformat a w))))).

End AfterStatus.

(** ** The driver

    The block under [if __name__ == "__main__"].  Printing is left out;
    the value of the run is the module variable [token] as the block
    leaves it. *)

Section Driver.

Variable clock : nat -> Z.
Variable remote : list request -> request -> net_result.
Variable disk : nat -> bool.
Variable torn : nat -> option file.
Variable fromisoformat : string -> option datetime.
Variable isoformat : datetime -> string.
Variable float_microseconds : Z -> float -> option Z.

(** What slicing a dictionary raises: [TypeError] before Python 3.12,
    [KeyError] since. *)
Variable unhashable_slice : exn.

(** [token[:15]], evaluated for the message that is printed. *)
Definition py_prefix (v : pyval) : outcome pyval :=
  match v with
  | PStr s => Returned (PStr (String.substring 0 15 s))
  | PList l => Returned (PList (firstn 15 l))
  | PDict _ => Raised unhashable_slice
  | _ => Raised TypeError
  end.

(** [status[kind][field]] as a condition. *)
Definition status_flag (status : pyval) (kind field : string) : M bool :=
  entry <- lift (py_getitem status kind) ;;
  v <- lift (py_getitem entry field) ;;
  ret (truthy v).

(** [a and b] as a condition: [b] is evaluated only after a truthy [a]. *)
Definition and_also (a b : M bool) : M bool :=
  x <- a ;; if x then b else ret false.

(** [auth_manager.setup_with_invite_code(auth_manager.invite_code_data.get("invite_code"))] *)
Definition setup_from_invite_record : M bool :=
  me <- get_self ;;
  invite_code <- lift (py_get (invite_code_data me) "invite_code" PNone) ;;
  setup_with_invite_code clock remote disk torn isoformat float_microseconds
    invite_code expiration_days_default.

(** Lines 226-238: the status, and a setup when both tokens have expired
    and the invite code is there and valid. *)
Definition setup_if_expired : M unit :=
  status <- check_token_status clock fromisoformat ;;
  need_setup <-
    and_also (status_flag status "auth_token" "expired")
      (and_also (status_flag status "refresh_token" "expired")
         (and_also (status_flag status "invite_code" "exists")
            (status_flag status "invite_code" "valid"))) ;;
  if need_setup then setup_from_invite_record ;;; ret tt else ret tt.

(** Lines 243-250: a token was obtained; it is shown and validated. *)
Definition report_token (token : pyval) : M pyval :=
  lift (py_prefix token) ;;;
  validate_token remote token ;;;
  ret token.

(** Lines 251-262: no token was obtained; with a valid invite code and no
    refresh record the setup is tried, and after it the token once more. *)
Definition retry_with_invite (token : pyval) : M pyval :=
  status <- check_token_status clock fromisoformat ;;
  retry <-
    and_also (status_flag status "invite_code" "exists")
      (and_also (status_flag status "invite_code" "valid")
         (exists_ <- status_flag status "refresh_token" "exists" ;; ret (negb exists_))) ;;
  if retry then
    ok <- setup_from_invite_record ;;
    if ok then
      token <- get_valid_token clock remote disk torn fromisoformat isoformat
                 float_microseconds ;;
      (if truthy token then lift (py_prefix token) ;;; ret tt else ret tt) ;;;
      ret token
    else ret token
  else ret token.

Definition main : M pyval :=
  __init__ ;;;
  setup_if_expired ;;;
  token <- get_valid_token clock remote disk torn fromisoformat isoformat
             float_microseconds ;;
  if truthy token then report_token token else retry_with_invite token.

End Driver.

(** A request to the setup endpoint. *)
Definition is_setup_request (rq : request) : bool :=
  match req_url rq with SETUP_URL => true | _ => false end.

(** Further scenarios for the examples. *)

Module Runs.

(** The renewable manager with its stale AccessRecord also on disk. *)
Definition renewable_in_step : world :=
  set_fs (<[AUTH_TOKEN_FILE := FJson Scenario.stale_access]> ∅) Scenario.renewable.

Definition valid_invite : pyval :=
  PDict [("invite_code", PStr "INVITE-1"); ("expiration", PStr "2026-12-01T00:00:00+00:00")].

(** Before any manager exists: only the invite code's file is there. *)
Definition first_run : world :=
  set_fs (<[INVITE_CODE_FILE := FJson valid_invite]> ∅) Scenario.blank.

(** A present record without an expiration. *)
Definition no_expiration : pyval := PDict [("access_token", PStr "loose")].

Definition run_main clock remote : M pyval :=
  main clock remote Scenario.disk_ok Scenario.untorn Calendar.fromisoformat
    Calendar.isoformat Calendar.float_microseconds TypeError.

End Runs.

(** ** Properties *)

Section Properties.

Local Open Scope list_scope.

Variable clock : nat -> Z.
Variable remote : list request -> request -> net_result.
Variable disk : nat -> bool.
Variable torn : nat -> option file.
Variable fromisoformat : string -> option datetime.
Variable isoformat : datetime -> string.
Variable float_microseconds : Z -> float -> option Z.

Local Abbreviation has_not_expired := (_has_not_expired clock fromisoformat).
Local Abbreviation valid_at := (isValid fromisoformat).

(** The effect of [_has_not_expired]: the clock is read exactly when the
    expiration parses, and nothing else changes. *)
Lemma has_not_expired_eq (data : pyval) (w : world) :
  inspectable data = true ->
  has_not_expired data w =
    match expiration_of fromisoformat data with
    | Some e => (Returned (clock (ticks w) <? e), tick w)
    | None => (Returned false, w)
    end.
Proof.
  intros Hi. unfold _has_not_expired.
  destruct (truthy data) eqn:Ht; simpl.
  2:{ destruct data as [| | | | | |[|]]; try discriminate Ht; reflexivity. }
  destruct data as [|b|n|f|s|l|d]; simpl in *; try discriminate;
    unfold inspectable in Hi; simpl in Hi; rewrite ?Ht in Hi; try discriminate.
  - unfold bind, lift, ret, try_except. simpl.
    destruct (String.index 0 "expiration" s); reflexivity.
  - unfold bind, lift, ret, try_except. simpl.
    destruct (existsb _ l); reflexivity.
  - unfold bind, lift, ret, try_except, datetime_now_utc. simpl.
    destruct (dict_lookup "expiration" d) as [v|] eqn:Hl; simpl; [|reflexivity].
    destruct (datetime_fromisoformat fromisoformat v) as [dt|e] eqn:Hp; simpl.
    + destruct dt as [wall [off|]]; simpl; unfold utc_instant; simpl;
        rewrite ?Z.sub_0_r; reflexivity.
    + destruct v; simpl in Hp; try (inversion Hp; subst; reflexivity).
      destruct (fromisoformat s); inversion Hp; subst; reflexivity.
Qed.

Lemma expiration_of_dict (data : pyval) (e : Z) :
  expiration_of fromisoformat data = Some e -> exists d, data = PDict d.
Proof. destruct data; try discriminate. eauto. Qed.

Lemma valid_at_dict (data : pyval) (now : Z) :
  valid_at now data = true -> exists d, data = PDict d.
Proof.
  unfold isValid. destruct (expiration_of fromisoformat data) eqn:E; [|discriminate].
  intros _. eapply expiration_of_dict, E.
Qed.

Lemma valid_at_inspectable (data : pyval) (now : Z) :
  valid_at now data = true -> inspectable data = true.
Proof.
  intros H. destruct (valid_at_dict _ _ H) as [d ->]. unfold inspectable.
  apply orb_true_r.
Qed.

(** The guard [data and self._has_not_expired(data)]. *)
Lemma guarded_check_eq (data : pyval) (w : world) :
  inspectable data = true ->
  (if truthy data then has_not_expired data else ret false) w =
    (Returned (valid_at (clock (ticks w)) data), after_check fromisoformat data w).
Proof.
  intros Hi. unfold isValid, after_check.
  destruct (truthy data) eqn:Ht.
  - rewrite has_not_expired_eq by exact Hi.
    destruct (expiration_of fromisoformat data); reflexivity.
  - assert (expiration_of fromisoformat data = None) as ->; [|reflexivity].
    destruct data as [| | | | | |[|]]; try reflexivity; discriminate.
Qed.

(** [_has_not_expired] at most reads the clock, whatever it is given. *)
Lemma has_not_expired_frame (data : pyval) (w : world) :
  snd (has_not_expired data w) = w \/ snd (has_not_expired data w) = tick w.
Proof.
  unfold _has_not_expired.
  destruct (truthy data); simpl; [|now left].
  unfold bind, lift, ret, try_except, datetime_now_utc.
  destruct (py_contains "expiration" data) as [[|]|e]; simpl; try now left.
  destruct (py_getitem data "expiration") as [v|e]; simpl.
  - destruct (datetime_fromisoformat fromisoformat v) as [dt|e]; simpl.
    + destruct (datetime_lt _ _) as [b|e]; simpl; [now right|].
      destruct (is_ValueError_or_TypeError e); now right.
    + destruct (is_ValueError_or_TypeError e); now left.
  - destruct (is_ValueError_or_TypeError e); now left.
Qed.

(** A truthy number is not a record: the membership test raises before
    the [try] is entered. *)
Example has_not_expired_of_number (w : world) :
  has_not_expired (PInt 5) w = (Raised TypeError, w).
Proof. reflexivity. Qed.

(** Refinement of [isValid] by [_has_not_expired], on records. *)
Lemma has_not_expired_valid_at (data : pyval) (w : world) :
  inspectable data = true ->
  fst (has_not_expired data w) = Returned (valid_at (clock (ticks w)) data).
Proof.
  intros Hi. rewrite has_not_expired_eq by exact Hi. unfold isValid.
  destruct (expiration_of fromisoformat data); reflexivity.
Qed.

(** *** Token validation *)

Lemma get_token_details_eq (token : pyval) (w : world) :
  _get_token_details remote token w =
    (Returned (details_of (remote (net_log w) (details_request token))),
     log_request (details_request token) w).
Proof.
  unfold _get_token_details, try_except, bind, requests_get, details_request, details_of.
  destruct (remote _ _) as [|st [v|]]; simpl; try reflexivity;
    destruct (st =? 200); reflexivity.
Qed.

Lemma validate_token_eq (token : pyval) (w : world) :
  validate_token remote token w =
    (verdict_of (details_of (remote (net_log w) (details_request token))),
     log_request (details_request token) w).
Proof.
  unfold validate_token, bind. rewrite get_token_details_eq. unfold verdict_of.
  destruct (truthy _); [|reflexivity].
  unfold lift. destruct (py_get _ _ _) as [v|e]; [|reflexivity].
  destruct (truthy v); reflexivity.
Qed.

Lemma py_getitem_Returned (v x : pyval) (k : string) :
  py_getitem v k = Returned x -> exists d, v = PDict d /\ dict_lookup k d = Some x.
Proof.
  destruct v; try discriminate. simpl.
  destruct (dict_lookup k d) eqn:E; [|discriminate].
  intros [= ->]. eauto.
Qed.

(** A 200 answer whose body is a non-empty JSON list has no [get]: the
    [AttributeError] leaves [validate_token]. *)
Lemma validate_token_list_body (token x : pyval) (l : list pyval) (w : world) :
  remote (net_log w) (details_request token) = NetResponse 200 (Some (PList (x :: l))) ->
  fst (validate_token remote token w) = Raised AttributeError.
Proof. intros H. rewrite validate_token_eq, H. reflexivity. Qed.

(** C8, as the code has it.  [validate_token] returns [False] on a
    transport failure, on every status other than 200, and on a 200
    answer whose body does not decode or decodes to a falsy value; on a
    200 answer whose body is a JSON object it returns the truth value of
    the [validToken] field, [False] when the field is missing.  In all
    these cases it does not raise. *)
Theorem validate_token_verdict (token : pyval) (w : world) :
  let result := fst (validate_token remote token w) in
  match remote (net_log w) (details_request token) with
  | NetError => result = Returned false
  | NetResponse st body =>
      if st =? 200 then
        match body with
        | None => result = Returned false
        | Some (PDict d) =>
            result = Returned (truthy match dict_lookup "validToken" d with
                                      | Some v => v
                                      | None => PBool false
                                      end)
        | Some v => if truthy v then True else result = Returned false
        end
      else result = Returned false
  end.
Proof.
  cbv zeta. rewrite validate_token_eq. simpl.
  destruct (remote _ _) as [|st [v|]]; simpl; try reflexivity;
    destruct (st =? 200) eqn:Est; simpl; try reflexivity.
  unfold verdict_of.
  destruct v as [|b|n|f|s|l|d]; simpl; try reflexivity.
  - destruct b; [exact I | reflexivity].
  - destruct (negb (n =? 0)); [exact I | reflexivity].
  - destruct (negb (f =? 0)%float); [exact I | reflexivity].
  - destruct (negb (s =? "")%string); [exact I | reflexivity].
  - destruct l; [reflexivity | exact I].
  - destruct d; reflexivity.
Qed.

(** C4. [_has_not_expired] is [isValid]: [False] for an absent record,
    for one without an [expiration] field and for one whose expiration
    does not parse (the parse error is swallowed, not raised); otherwise
    [True] exactly when the clock reading is before the expiration, a
    timezone-less expiration being read as UTC. *)
Theorem has_not_expired_is_isValid (d : list (string * pyval)) (w : world) :
  let now := clock (ticks w) in
  fst (has_not_expired PNone w) = Returned false
  /\ fst (has_not_expired (PDict []) w) = Returned false
  /\ fst (has_not_expired (PDict d) w) =
       Returned
         match dict_lookup "expiration" d with
         | None => false
         | Some v =>
             match datetime_fromisoformat fromisoformat v with
             | Raised _ => false
             | Returned dt =>
                 match dt_tzinfo dt with
                 | None => now <? dt_wall dt
                 | Some off => now <? dt_wall dt - off
                 end
             end
         end
  /\ fst (has_not_expired (PDict d) w) = Returned (valid_at now (PDict d)).
Proof.
  cbv zeta. split; [reflexivity|]. split; [reflexivity|].
  assert (Hi : inspectable (PDict d) = true) by apply orb_true_r.
  rewrite has_not_expired_valid_at by exact Hi.
  split; [|reflexivity].
  unfold isValid, expiration_of.
  destruct (dict_lookup "expiration" d) as [v|]; [|reflexivity].
  destruct (datetime_fromisoformat fromisoformat v) as [[wall [off|]]|e];
    unfold utc_instant; simpl; rewrite ?Z.sub_0_r; reflexivity.
Qed.

(** *** Refresh *)

Local Abbreviation refresh_auth_token' :=
  (refresh_auth_token clock remote disk torn fromisoformat isoformat float_microseconds).

Ltac case_innermost x :=
  lazymatch x with
  | context [match ?y with _ => _ end] => case_innermost y
  | _ => destruct x eqn:?
  end.

Ltac exec_step :=
  first
    [ rewrite validate_token_eq
    | rewrite has_not_expired_eq by assumption
    | progress unfold bind, ret, lift, raise, try_except, try_except2, get_self,
        requests_get, raise_for_status, response_json, datetime_now_utc,
        _save_file, open_and_dump
    | progress simpl
    | match goal with
      | |- context [match ?x with _ => _ end] => case_innermost x
      end ].

Ltac exec := repeat exec_step.

(** Closes [net_log w' = net_log w ++ ?l /\ refresh_traffic ?l] on a
    computed state. *)
Ltac traffic :=
  simpl;
  first
    [ exists []; split; [now rewrite app_nil_r | now left]
    | eexists; split; [reflexivity | right; left; eexists; reflexivity]
    | eexists; split;
      [rewrite <- app_assoc; reflexivity | right; right; do 2 eexists; reflexivity] ].

(** Under an arbitrary record: name the state after the expiry check. *)
Ltac expiry_check data w :=
  let E := fresh "E" in
  let o := fresh "o" in
  let w1 := fresh "w" in
  destruct (has_not_expired_frame data w) as [E|E];
  destruct (has_not_expired data w) as [o w1];
  simpl in E; subst w1; destruct o as [[|]|?].

Lemma refresh_auth_token_traffic (w : world) :
  exists l, net_log (snd (refresh_auth_token' w)) = net_log w ++ l /\ refresh_traffic l.
Proof.
  unfold refresh_auth_token, bind at 1, get_self.
  destruct (truthy (refresh_token_data (self w))) eqn:Ht; simpl.
  2:{ unfold bind, ret; simpl. traffic. }
  unfold bind at 1. unfold bind at 1.
  expiry_check (refresh_token_data (self w)) w; exec; traffic.
Qed.

(** Closes [net_log w' = net_log w ++ ?l /\ refresh_exchange _ _ _ ?l] on
    a computed state, from the equations the run has left. *)
Ltac exchange :=
  simpl;
  repeat match goal with
         | G : py_getitem _ "token" = Returned _ |- _ =>
             destruct (py_getitem_Returned _ _ _ G) as (? & -> & ?); clear G
         | G : negb (truthy _) = false |- _ => apply negb_false_iff in G
         end;
  first
    [ exists []; split; [now rewrite app_nil_r | now left]
    | eexists; split; [reflexivity|];
      right; eexists; split; [eassumption|]; split; [assumption|]; left; reflexivity
    | eexists; split; [rewrite <- app_assoc; reflexivity|];
      right; eexists; split; [eassumption|]; split; [assumption|]; right;
      do 3 eexists; split; [eassumption|];
      split; [eassumption|]; split; [eassumption | reflexivity] ].

Lemma refresh_auth_token_exchange (w : world) :
  exists l,
    net_log (snd (refresh_auth_token' w)) = net_log w ++ l
    /\ refresh_exchange remote (refresh_token_data (self w)) (net_log w) l.
Proof.
  unfold refresh_auth_token, bind at 1, get_self.
  destruct (truthy (refresh_token_data (self w))) eqn:Ht; simpl.
  2:{ unfold bind, ret; simpl. exists []. split; [now rewrite app_nil_r | now left]. }
  unfold bind at 1. unfold bind at 1.
  expiry_check (refresh_token_data (self w)) w; exec; exchange.
Qed.

Lemma refresh_auth_token_returns (w : world) :
  inspectable (refresh_token_data (self w)) = true ->
  exists b w', refresh_auth_token' w = (Returned b, w').
Proof.
  intros Hi. unfold refresh_auth_token.
  exec; try (eexists; eexists; reflexivity).
  match goal with
  | H : expiration_of _ _ = Some _ |- _ => destruct (expiration_of_dict _ _ H) as [d Hd]
  end.
  rewrite Hd in *. discriminate.
Qed.

(** Without a valid RefreshRecord the call stops before the network. *)
Lemma refresh_auth_token_invalid (w : world) :
  inspectable (refresh_token_data (self w)) = true ->
  valid_at (clock (ticks w)) (refresh_token_data (self w)) = false ->
  refresh_auth_token' w =
    (Returned false, after_check fromisoformat (refresh_token_data (self w)) w).
Proof.
  intros Hi Hv. unfold refresh_auth_token, bind at 1, get_self.
  unfold bind at 1.
  change (if negb (truthy ?d) then ret true else ?k)
    with (if negb (truthy d) then ret true else k).
  destruct (truthy (refresh_token_data (self w))) eqn:Ht; simpl.
  - unfold bind at 1. rewrite has_not_expired_eq by exact Hi.
    unfold isValid, after_check in *.
    destruct (expiration_of fromisoformat (refresh_token_data (self w))); simpl.
    + rewrite Hv. reflexivity.
    + reflexivity.
  - unfold after_check.
    assert (expiration_of fromisoformat (refresh_token_data (self w)) = None) as ->;
      [|reflexivity].
    destruct (refresh_token_data (self w)) as [| | | | | |[|]]; try reflexivity; discriminate.
Qed.

(** A successful refresh leaves in memory an AccessRecord whose token is
    the [token] field of the server's answer. *)
Lemma refresh_auth_token_success (w w' : world) :
  inspectable (refresh_token_data (self w)) = true ->
  refresh_auth_token' w = (Returned true, w') ->
  exists rt st td tok created expiration,
    remote (net_log w) (token_request rt) = NetResponse st (Some (PDict td))
    /\ dict_lookup "token" td = Some tok
    /\ auth_token_data (self w') = access_record tok created expiration.
Proof.
  intros Hi. unfold refresh_auth_token.
  exec; intros H; try discriminate H.
  all: injection H as <-.
  all: match goal with
       | G : py_getitem _ "token" = Returned _ |- _ =>
           destruct (py_getitem_Returned _ _ _ G) as (td & -> & Hl)
       end.
  all: do 6 eexists; split; [eassumption | split; [exact Hl | reflexivity]].
Qed.

(** C7. When [refresh_auth_token] has obtained a token from the server
    and stored it, and the validation that follows does not confirm the
    token, the call returns [False]; the new AccessRecord nevertheless
    stays as [self.auth_token_data], and in the token file when the
    write went through. *)
Theorem refresh_auth_token_failed_validation_keeps_token
    (w : world) (rt tok : pyval) (st seconds : Z) (td : list (string * pyval)) :
  let record := refresh_token_data (self w) in
  let now := clock (S (ticks w)) in
  let auth_data :=
    access_record tok (isoformat (utc now)) (isoformat (utc (now + seconds))) in
  valid_at (clock (ticks w)) record = true ->
  py_get record "refresh_token" PNone = Returned rt ->
  truthy rt = true ->
  remote (net_log w) (token_request rt) = NetResponse st (Some (PDict td)) ->
  (400 <=? st) && (st <? 600) = false ->
  dict_lookup "token" td = Some tok ->
  timedelta float_microseconds US_PER_SECOND
    match dict_lookup "expiresIn" td with Some v => v | None => PInt 86400 end
    = Returned seconds ->
  (0 <=? now + seconds) && (now + seconds <? DATETIME_END) = true ->
  verdict_of (details_of (remote (net_log w ++ [token_request rt]) (details_request tok)))
    <> Returned true ->
  exists w',
    refresh_auth_token' w = (Returned false, w')
    /\ auth_token_data (self w') = auth_data
    /\ (disk (disk_ops w) = true -> fs w' !! AUTH_TOKEN_FILE = Some (FJson auth_data)).
Proof.
  intros record now auth_data Hv Hrt Htruthy Hrem Hst Htok Htd Hrange Hverdict.
  pose proof (valid_at_inspectable _ _ Hv) as Hi.
  assert (Hexp : exists e, expiration_of fromisoformat record = Some e
                           /\ (clock (ticks w) <? e) = true).
  { unfold isValid in Hv. destruct (expiration_of fromisoformat record) as [e|];
      [eauto | discriminate]. }
  destruct Hexp as (e & Hexp & Hlt). clear Hv.
  assert (Htr : truthy record = true).
  { destruct (expiration_of_dict _ _ Hexp) as [rd Hrd]. rewrite Hrd in *.
    destruct rd; [discriminate Hexp | reflexivity]. }
  assert (Hadd : datetime_add {| dt_wall := clock (S (ticks w)); dt_tzinfo := Some 0 |}
                   seconds = Returned (utc (now + seconds))).
  { unfold datetime_add. simpl dt_wall. fold now. rewrite Hrange. reflexivity. }
  clear Hrange.
  assert (Hin : py_contains "token" (PDict td) = Returned true).
  { simpl. now rewrite Htok. }
  assert (Hget : py_get (PDict td) "expiresIn" (PInt 86400)
                 = Returned match dict_lookup "expiresIn" td with
                            | Some v => v
                            | None => PInt 86400
                            end) by reflexivity.
  assert (Hitem : py_getitem (PDict td) "token" = Returned tok).
  { simpl. now rewrite Htok. }
  unfold record in *. clear record.
  unfold token_request in *.
  unfold refresh_auth_token.
  repeat first
    [ match goal with H : ?l = _ |- context [?l] => progress rewrite H end
    | exec_step ].
  all: try congruence.
  all: eexists; split; [reflexivity|]; split; [reflexivity|]; intros Hd; try congruence.
  all: simpl; rewrite lookup_insert_eq; reflexivity.
Qed.

(** *** Retrieval of a usable access token *)

Local Abbreviation get_valid_token' :=
  (get_valid_token clock remote disk torn fromisoformat isoformat float_microseconds).

Lemma after_check_self (data : pyval) (w : world) :
  self (after_check fromisoformat data w) = self w.
Proof. unfold after_check. destruct (expiration_of _ _); reflexivity. Qed.

Lemma after_check_net_log (data : pyval) (w : world) :
  net_log (after_check fromisoformat data w) = net_log w.
Proof. unfold after_check. destruct (expiration_of _ _); reflexivity. Qed.

Lemma after_check_fs (data : pyval) (w : world) :
  fs (after_check fromisoformat data w) = fs w.
Proof. unfold after_check. destruct (expiration_of _ _); reflexivity. Qed.

(** With neither record valid, [get_valid_token] gives up at once. *)
Lemma get_valid_token_gives_up (w : world) :
  let auth := auth_token_data (self w) in
  let refresh := refresh_token_data (self w) in
  let w1 := after_check fromisoformat auth w in
  let w2 := after_check fromisoformat refresh w1 in
  inspectable auth = true ->
  inspectable refresh = true ->
  valid_at (clock (ticks w)) auth = false ->
  valid_at (clock (ticks w1)) refresh = false ->
  get_valid_token' w = (Returned PNone, w2) /\ net_log w2 = net_log w.
Proof.
  intros auth refresh w1 w2 Ha Hr Hv Hvr.
  unfold get_valid_token.
  unfold bind at 1; unfold get_self at 1; cbv beta iota.
  unfold bind at 1; rewrite (guarded_check_eq (auth_token_data (self w)) w Ha).
  fold auth w1; rewrite Hv.
  unfold bind at 1. rewrite (guarded_check_eq (refresh_token_data (self w)) w1 Hr).
  fold refresh w2. rewrite Hvr.
  split; [reflexivity|].
  unfold w2, w1. rewrite !after_check_net_log. reflexivity.
Qed.

(** C1. [get_valid_token] decides in this order.  (1) A valid in-memory
    AccessRecord: its access token is returned and no request is sent.
    (2) Otherwise a valid in-memory RefreshRecord: [refresh_auth_token]
    is attempted; when it succeeds the access token of the record it has
    just stored is returned, which is the [token] field of the server's
    answer, and when it fails the result is [None].  (3) Otherwise the
    result is [None] and no request is sent.  The call never raises.
    Validity is [isValid] at the clock reading each check takes. *)
Theorem get_valid_token_decision_order (w : world) :
  let auth := auth_token_data (self w) in
  let refresh := refresh_token_data (self w) in
  let w1 := after_check fromisoformat auth w in
  let w2 := after_check fromisoformat refresh w1 in
  inspectable auth = true ->
  inspectable refresh = true ->
  (valid_at (clock (ticks w)) auth = true ->
     get_valid_token' w = (Returned (access_token_of auth), w1)
     /\ net_log w1 = net_log w)
  /\ (valid_at (clock (ticks w)) auth = false ->
      valid_at (clock (ticks w1)) refresh = true ->
      exists ok w3,
        refresh_auth_token' w2 = (Returned ok, w3)
        /\ get_valid_token' w =
             (Returned (if ok then access_token_of (auth_token_data (self w3)) else PNone), w3)
        /\ (ok = true ->
             exists rt st td,
               remote (net_log w) (token_request rt) = NetResponse st (Some (PDict td))
               /\ dict_lookup "token" td = Some (access_token_of (auth_token_data (self w3)))))
  /\ (valid_at (clock (ticks w)) auth = false ->
      valid_at (clock (ticks w1)) refresh = false ->
      get_valid_token' w = (Returned PNone, w2)
      /\ net_log w2 = net_log w).
Proof.
  intros auth refresh w1 w2 Ha Hr.
  assert (Hr1 : inspectable (refresh_token_data (self w1)) = true).
  { unfold w1. rewrite after_check_self. exact Hr. }
  assert (Hr2 : inspectable (refresh_token_data (self w2)) = true).
  { unfold w2. rewrite after_check_self. exact Hr1. }
  assert (Hself1 : self w1 = self w) by apply after_check_self.
  split; [|split]; intros Hv; [| |now apply get_valid_token_gives_up];
    unfold get_valid_token;
    unfold bind at 1; unfold get_self at 1; cbv beta iota;
    unfold bind at 1; rewrite (guarded_check_eq (auth_token_data (self w)) w Ha);
    fold auth w1; rewrite Hv.
  - destruct (valid_at_dict _ _ Hv) as [d Hd].
    split; [|apply after_check_net_log].
    unfold lift. fold auth. rewrite Hd. reflexivity.
  - intros Hvr.
    unfold bind at 1. rewrite (guarded_check_eq (refresh_token_data (self w)) w1 Hr).
    fold refresh w2. rewrite Hvr.
    destruct (refresh_auth_token_returns w2 Hr2) as (ok & w3 & Hrun).
    exists ok, w3. split; [exact Hrun|].
    unfold bind at 1. rewrite Hrun.
    destruct ok.
    + destruct (refresh_auth_token_success w2 w3 Hr2 Hrun)
        as (rt & st & td & tok & c & e & Hrem & Hl & Hrec).
      unfold bind, get_self, lift. rewrite Hrec. simpl.
      split; [reflexivity|]. intros _. exists rt, st, td.
      unfold w2, w1 in Hrem. rewrite !after_check_net_log in Hrem.
      split; assumption.
    + split; [reflexivity | discriminate].
Qed.

(** C2, as the code has it.  One call of [get_valid_token] sends no
    request, or one refresh request alone, or one refresh request
    followed by one validation request: at most two round trips, at most
    one of them a refresh attempt, and no retry.  The refresh request
    carries the refresh token of the in-memory RefreshRecord; the
    validation is sent only after an answer to the refresh request that
    is not a 4xx or 5xx and whose body carries [token], and it is for the
    token just received.  This holds for every state and every remote
    behaviour, also when the call raises. *)
Theorem get_valid_token_at_most_two_round_trips (w : world) :
  exists l,
    net_log (snd (get_valid_token' w)) = net_log w ++ l
    /\ refresh_exchange remote (refresh_token_data (self w)) (net_log w) l
    /\ (length l <= 2)%nat.
Proof.
  set (sent := refresh_exchange remote (refresh_token_data (self w)) (net_log w)).
  assert (Hlen : forall l, sent l -> (length l <= 2)%nat).
  { intros l [->|(rt & _ & _ & [->|(st & td & tok & _ & _ & _ & ->)])]; simpl; lia. }
  assert (Hnil : forall w1, net_log w1 = net_log w ->
            exists l, net_log w1 = net_log w ++ l /\ sent l).
  { intros w1 H1. exists []. split; [now rewrite app_nil_r | now left]. }
  assert (Hrest : forall w1,
    net_log w1 = net_log w -> self w1 = self w ->
    exists l,
      net_log (snd (bind (if truthy (refresh_token_data (self w))
                          then has_not_expired (refresh_token_data (self w))
                          else ret false)
                      (fun have_refresh =>
                         bind (if have_refresh : bool then refresh_auth_token' else ret false)
                           (fun refreshed =>
                              if refreshed : bool then
                                bind get_self (fun me' =>
                                  lift (py_get (auth_token_data me') "access_token" PNone))
                              else ret PNone)) w1))
      = net_log w ++ l /\ sent l).
  { intros w1 H1 S1.
    assert (Hgo : forall w2 (b : bool), net_log w2 = net_log w -> self w2 = self w ->
      exists l,
        net_log (snd (bind (if b then refresh_auth_token' else ret false)
                        (fun refreshed =>
                           if refreshed : bool then
                             bind get_self (fun me' =>
                               lift (py_get (auth_token_data me') "access_token" PNone))
                           else ret PNone) w2))
        = net_log w ++ l /\ sent l).
    { intros w2 [|] H2 S2.
      - unfold bind at 1.
        destruct (refresh_auth_token_exchange w2) as (l & Hl & Ht).
        rewrite H2, S2 in Ht.
        destruct (refresh_auth_token' w2) as [[[|]|e] w3]; simpl in Hl;
          exists l; (split; [|exact Ht]); rewrite <- H2, <- Hl;
          unfold bind, get_self, lift, ret; simpl; reflexivity.
      - apply Hnil. exact H2. }
    unfold bind at 1.
    destruct (truthy (refresh_token_data (self w))).
    - expiry_check (refresh_token_data (self w)) w1; cbv beta iota;
        first [ apply (Hgo _ true); simpl; assumption
              | apply (Hgo _ false); simpl; assumption
              | apply Hnil; simpl; assumption ].
    - apply Hgo; assumption. }
  cut (exists l, net_log (snd (get_valid_token' w)) = net_log w ++ l /\ sent l).
  { intros (l & Hl & Ht). exists l. auto. }
  unfold get_valid_token. unfold bind at 1. unfold get_self at 1. cbv beta iota.
  unfold bind at 1.
  destruct (truthy (auth_token_data (self w))).
  - expiry_check (auth_token_data (self w)) w; cbv beta iota;
      first [ apply Hrest; reflexivity
            | apply Hnil; reflexivity ].
  - apply Hrest; reflexivity.
Qed.

(** C6. When the in-memory RefreshRecord is absent or not valid by
    [isValid], [refresh_auth_token] returns [False] and sends nothing;
    and if the AccessRecord is not valid either, [get_valid_token]
    returns [None] and sends nothing. *)
Theorem no_valid_refresh_record_no_network (w : world) :
  let auth := auth_token_data (self w) in
  let refresh := refresh_token_data (self w) in
  inspectable refresh = true ->
  (forall k, (ticks w <= k)%nat -> valid_at (clock k) refresh = false) ->
  (exists w', refresh_auth_token' w = (Returned false, w') /\ net_log w' = net_log w)
  /\ (inspectable auth = true ->
      valid_at (clock (ticks w)) auth = false ->
      exists w', get_valid_token' w = (Returned PNone, w') /\ net_log w' = net_log w).
Proof.
  intros auth refresh Hr Hnever. split.
  - eexists. split.
    + apply refresh_auth_token_invalid; [exact Hr|]. apply Hnever. lia.
    + apply after_check_net_log.
  - intros Ha Hv.
    eexists. apply (get_valid_token_gives_up w Ha Hr); [exact Hv|].
    apply Hnever. unfold after_check.
    destruct (expiration_of fromisoformat (auth_token_data (self w))); simpl; lia.
Qed.

(** *** Status projection *)

Local Abbreviation check_token_status' := (check_token_status clock fromisoformat).

Lemma after_check_ticks (data : pyval) (w : world) :
  (ticks w <= ticks (after_check fromisoformat data w) <= S (ticks w))%nat.
Proof. unfold after_check. destruct (expiration_of _ _); simpl; lia. Qed.

Lemma after_check_disk_ops (data : pyval) (w : world) :
  disk_ops (after_check fromisoformat data w) = disk_ops w.
Proof. unfold after_check. destruct (expiration_of _ _); reflexivity. Qed.

Lemma and_has_not_expired_eq (negate : bool) (data : pyval) (w : world) :
  inspectable data = true ->
  and_has_not_expired clock fromisoformat negate data w =
    (Returned (if truthy data
               then PBool (xorb negate (valid_at (clock (ticks w)) data))
               else data),
     after_check fromisoformat data w).
Proof.
  intros Hi. unfold and_has_not_expired.
  pose proof (guarded_check_eq data w Hi) as Hg.
  destruct (truthy data).
  - unfold bind. rewrite Hg. unfold ret.
    destruct negate, (valid_at (clock (ticks w)) data); reflexivity.
  - unfold ret in *. injection Hg as _ <-. reflexivity.
Qed.

Lemma status_of_eq (data : pyval) (w : world) :
  inspectable data = true ->
  let w1 := after_check fromisoformat data w in
  status_of clock fromisoformat data w =
    (Returned
       (status_entry (truthy data)
          (if truthy data then PBool (valid_at (clock (ticks w)) data) else data)
          (if truthy data then PBool (negb (valid_at (clock (ticks w1)) data)) else data)),
     after_check fromisoformat data w1).
Proof.
  intros Hi w1. unfold status_of, bind.
  rewrite (and_has_not_expired_eq false data w Hi). fold w1.
  rewrite (and_has_not_expired_eq true data w1 Hi). reflexivity.
Qed.

(** An entry is consistent when the two clock readings taken for it agree
    on the record's validity. *)
Lemma status_entry_consistent (data : pyval) (v1 v2 : bool) :
  v1 = v2 ->
  status_consistent (truthy data)
    (if truthy data then PBool v1 else data)
    (if truthy data then PBool (negb v2) else data).
Proof.
  intros ->. unfold status_consistent.
  destruct (truthy data) eqn:Ht; simpl; rewrite ?Ht; split; try reflexivity;
    try discriminate; auto.
Qed.

(** What [check_token_status] does keep.  When the clock readings taken
    during the call agree on the validity of each record, every entry
    satisfies [expired = exists and not valid] (as truth values), an
    absent record is reported as neither valid nor expired, and the call
    changes neither the in-memory records, nor the files, nor the request
    log. *)
Theorem check_token_status_projection (w : world) :
  let auth := auth_token_data (self w) in
  let refresh := refresh_token_data (self w) in
  let invite := invite_code_data (self w) in
  let steady data :=
    forall k, (ticks w <= k < ticks w + 6)%nat ->
              valid_at (clock k) data = valid_at (clock (ticks w)) data in
  inspectable auth = true ->
  inspectable refresh = true ->
  inspectable invite = true ->
  steady auth -> steady refresh -> steady invite ->
  exists va xa vr xr vi xi w',
    check_token_status' w =
      (Returned (PDict [("auth_token", status_entry (truthy auth) va xa);
                        ("refresh_token", status_entry (truthy refresh) vr xr);
                        ("invite_code", status_entry (truthy invite) vi xi)]),
       w')
    /\ status_consistent (truthy auth) va xa
    /\ status_consistent (truthy refresh) vr xr
    /\ status_consistent (truthy invite) vi xi
    /\ self w' = self w /\ fs w' = fs w /\ net_log w' = net_log w
    /\ disk_ops w' = disk_ops w.
Proof.
  intros auth refresh invite steady Ha Hr Hi Sa Sr Si.
  unfold check_token_status. unfold bind at 1. unfold get_self at 1. cbv beta iota.
  unfold bind at 1. rewrite (status_of_eq (auth_token_data (self w)) w Ha). cbv zeta.
  set (w1 := after_check fromisoformat (auth_token_data (self w)) w).
  set (w2 := after_check fromisoformat (auth_token_data (self w)) w1).
  unfold bind at 1. rewrite (status_of_eq (refresh_token_data (self w)) w2 Hr). cbv zeta.
  set (w3 := after_check fromisoformat (refresh_token_data (self w)) w2).
  set (w4 := after_check fromisoformat (refresh_token_data (self w)) w3).
  unfold bind at 1. rewrite (status_of_eq (invite_code_data (self w)) w4 Hi). cbv zeta.
  set (w5 := after_check fromisoformat (invite_code_data (self w)) w4).
  set (w6 := after_check fromisoformat (invite_code_data (self w)) w5).
  pose proof (after_check_ticks (auth_token_data (self w)) w) as T1.
  pose proof (after_check_ticks (auth_token_data (self w)) w1) as T2.
  pose proof (after_check_ticks (refresh_token_data (self w)) w2) as T3.
  pose proof (after_check_ticks (refresh_token_data (self w)) w3) as T4.
  pose proof (after_check_ticks (invite_code_data (self w)) w4) as T5.
  fold w1 in T1, T2. fold w2 in T2, T3. fold w3 in T3, T4. fold w4 in T4, T5.
  fold w5 in T5.
  do 7 eexists. split; [reflexivity|].
  split; [|split; [|split]].
  - apply status_entry_consistent. fold auth. rewrite (Sa (ticks w1)) by lia.
    reflexivity.
  - apply status_entry_consistent. fold refresh.
    rewrite (Sr (ticks w2)), (Sr (ticks w3)) by lia. reflexivity.
  - apply status_entry_consistent. fold invite.
    rewrite (Si (ticks w4)), (Si (ticks w5)) by lia. reflexivity.
  - unfold w6, w5, w4, w3, w2, w1.
    rewrite !after_check_self, !after_check_fs, !after_check_net_log,
      !after_check_disk_ops. auto.
Qed.

(** *** Setup *)

Local Abbreviation setup_with_invite_code' :=
  (setup_with_invite_code clock remote disk torn isoformat float_microseconds).

Lemma setup_with_invite_code_self (invite_code expiration_days : pyval) (w : world) :
  self (snd (setup_with_invite_code' invite_code expiration_days w)) = self w.
Proof.
  unfold setup_with_invite_code, os_path_exists, os_remove. exec; reflexivity.
Qed.

Lemma datetime_add_Returned (d x : datetime) (td : Z) :
  datetime_add d td = Returned x ->
  x = {| dt_wall := dt_wall d + td; dt_tzinfo := dt_tzinfo d |}.
Proof.
  unfold datetime_add. destruct (_ && _); [|discriminate]. now intros [= <-].
Qed.

Lemma timedelta_PInt (unit n x : Z) :
  timedelta float_microseconds unit (PInt n) = Returned x -> x = n * unit.
Proof.
  unfold timedelta. destruct (timedelta_in_range _); [|discriminate]. now intros [= <-].
Qed.

Lemma py_get_Returned (v x default : pyval) (k : string) :
  py_get v k default = Returned x ->
  exists d, v = PDict d
            /\ x = match dict_lookup k d with Some y => y | None => default end.
Proof. destruct v; try discriminate. intros [= <-]. eauto. Qed.

(** C9. After a successful [setup_with_invite_code] that read the clock
    at [now]: the AccessRecord handed to the disk has [created = now] and
    [expiration = now + timedelta(seconds=expiresIn)], the RefreshRecord
    has [created = now] and [expiration = now +
    timedelta(days=expiration_days)], and each is what its file holds
    when its write went through.  The first delta is 86400 s when the
    answer omits [expiresIn] and [n] s when it gives the integer [n]; the
    second is [n] days for an integer [n], 30 days by default. *)
Theorem setup_with_invite_code_records
    (invite_code expiration_days : pyval) (w w' : world) :
  setup_with_invite_code' invite_code expiration_days w = (Returned true, w') ->
  let now := clock (ticks w) in
  exists st td token refresh_token seconds days,
    remote (net_log w) (setup_request invite_code) = NetResponse st (Some (PDict td))
    /\ dict_lookup "token" td = Some token
    /\ dict_lookup "refreshToken" td = Some refresh_token
    /\ timedelta float_microseconds US_PER_SECOND
         match dict_lookup "expiresIn" td with Some v => v | None => PInt 86400 end
       = Returned seconds
    /\ timedelta float_microseconds US_PER_DAY expiration_days = Returned days
    /\ (dict_lookup "expiresIn" td = None -> seconds = 86400 * US_PER_SECOND)
    /\ (forall n, dict_lookup "expiresIn" td = Some (PInt n) -> seconds = n * US_PER_SECOND)
    /\ (forall n, expiration_days = PInt n -> days = n * US_PER_DAY)
    /\ (expiration_days = expiration_days_default -> days = 30 * US_PER_DAY)
    /\ (disk (disk_ops w) = true ->
        fs w' !! AUTH_TOKEN_FILE =
          Some (FJson (access_record token (isoformat (utc now))
                         (isoformat (utc (now + seconds))))))
    /\ (disk (S (disk_ops w)) = true ->
        fs w' !! REFRESH_TOKEN_FILE =
          Some (FJson (refresh_record refresh_token (isoformat (utc now))
                         (isoformat (utc (now + days)))))).
Proof.
  unfold setup_with_invite_code, os_path_exists, os_remove.
  exec; intros H; try discriminate H.
  all: injection H as <-.
  all: repeat match goal with
         | G : py_get _ _ _ = Returned _ |- _ =>
             destruct (py_get_Returned _ _ _ _ G) as (td & -> & ->); clear G
         | G : py_getitem _ _ = Returned _ |- _ =>
             destruct (py_getitem_Returned _ _ _ G) as (td' & [= <-] & ?); clear G
         | G : datetime_add _ _ = Returned _ |- _ =>
             apply datetime_add_Returned in G; simpl in G; subst
         end.
  all: do 6 eexists.
  all: do 5 (split; [first [eassumption | reflexivity]|]).
  all: split; [intros E; rewrite E in *; eapply timedelta_PInt; eassumption|].
  all: split; [intros n E; rewrite E in *; eapply timedelta_PInt; eassumption|].
  all: split; [intros n ->; eapply timedelta_PInt; eassumption|].
  all: split; [intros ->; eapply timedelta_PInt; eassumption|].
  all: split; intros Hd; try congruence.
  all: simpl; unfold utc, access_record, refresh_record.
  all: rewrite ?lookup_delete_ne by done.
  all: rewrite ?lookup_insert_eq; try reflexivity.
  all: rewrite ?lookup_insert_ne by done.
  all: rewrite ?lookup_insert_eq; reflexivity.
Qed.

(** A setup that fails on the transport, on a 4xx or 5xx status, on an
    answer that does not decode or on one without [token] has written
    nothing. *)
Lemma setup_with_invite_code_fails_before_writing
    (invite_code expiration_days : pyval) (w : world) :
  remote (net_log w) (setup_request invite_code) = NetError
  \/ (exists st body, remote (net_log w) (setup_request invite_code) = NetResponse st body
                      /\ (400 <=? st) && (st <? 600) = true)
  \/ (exists st, remote (net_log w) (setup_request invite_code) = NetResponse st None)
  \/ (exists st td, remote (net_log w) (setup_request invite_code)
                      = NetResponse st (Some (PDict td))
                    /\ dict_lookup "token" td = None) ->
  exists w',
    setup_with_invite_code' invite_code expiration_days w = (Returned false, w')
    /\ fs w' = fs w /\ self w' = self w.
Proof.
  unfold setup_request.
  intros [H|[(st & body & H & Hst)|[(st & H)|(st & td & H & Htok)]]];
    unfold setup_with_invite_code, os_path_exists, os_remove;
    repeat first
      [ match goal with G : ?l = _ |- context [?l] => progress rewrite G end
      | exec_step ];
    try congruence;
    eexists; split; try reflexivity; split; reflexivity.
Qed.

(** [get_valid_token] reads the in-memory records, the clock and the
    server's answers, never the files. *)
Lemma get_valid_token_ignores_files
    (m : manager) (f1 f2 : gmap string file) (l : list request) (t d1 d2 : nat) :
  inspectable (auth_token_data m) = true ->
  inspectable (refresh_token_data m) = true ->
  fst (get_valid_token' (mk_world m f1 l t d1)) = fst (get_valid_token' (mk_world m f2 l t d2)).
Proof.
  intros Ha Hr. unfold get_valid_token, refresh_auth_token.
  exec; reflexivity || congruence.
Qed.

(** So does [check_token_status]. *)
Lemma check_token_status_ignores_files
    (m : manager) (f1 f2 : gmap string file) (l : list request) (t d1 d2 : nat) :
  inspectable (auth_token_data m) = true ->
  inspectable (refresh_token_data m) = true ->
  inspectable (invite_code_data m) = true ->
  fst (check_token_status' (mk_world m f1 l t d1))
  = fst (check_token_status' (mk_world m f2 l t d2)).
Proof.
  intros Ha Hr Hi.
  unfold check_token_status, status_of, and_has_not_expired.
  exec; reflexivity || congruence.
Qed.

(** C10. [setup_with_invite_code] never assigns the manager's three
    in-memory records, on success or on failure: its tokens reach the
    files only.  What [get_valid_token] and [check_token_status] return
    afterwards is what they return on the records from before the setup
    whatever the files hold.  In particular a manager whose in-memory
    AccessRecord and RefreshRecord are empty still gets [None] from
    [get_valid_token], without any request, and still reports both as not
    existing, after any setup. *)
Theorem setup_with_invite_code_keeps_memory
    (invite_code expiration_days : pyval) (w : world) :
  let w' := snd (setup_with_invite_code' invite_code expiration_days w) in
  let with_files f d :=
    {| self := self w; fs := f; net_log := net_log w'; ticks := ticks w'; disk_ops := d |} in
  self w' = self w
  /\ (inspectable (auth_token_data (self w)) = true ->
      inspectable (refresh_token_data (self w)) = true ->
      forall f d,
        fst (get_valid_token' w') = fst (get_valid_token' (with_files f d))
        /\ (inspectable (invite_code_data (self w)) = true ->
            fst (check_token_status' w') = fst (check_token_status' (with_files f d))))
  /\ (truthy (auth_token_data (self w)) = false ->
      truthy (refresh_token_data (self w)) = false ->
      inspectable (invite_code_data (self w)) = true ->
      (exists w'', get_valid_token' w' = (Returned PNone, w'') /\ net_log w'' = net_log w')
      /\ (exists invite_entry w'',
            check_token_status' w' =
              (Returned
                 (PDict [("auth_token",
                          status_entry false (auth_token_data (self w))
                            (auth_token_data (self w)));
                         ("refresh_token",
                          status_entry false (refresh_token_data (self w))
                            (refresh_token_data (self w)));
                         ("invite_code", invite_entry)]),
               w''))).
Proof.
  intros w' with_files.
  assert (Hself : self w' = self w) by apply setup_with_invite_code_self.
  split; [exact Hself|]. split.
  { intros Ha Hr f d. unfold with_files.
    destruct w' as [m' f' l' t' d']. simpl in Hself. subst m'. simpl.
    split; [now apply get_valid_token_ignores_files|].
    intros Hi. now apply check_token_status_ignores_files. }
  intros Ha Hr Hi.
  assert (Ia : inspectable (auth_token_data (self w')) = true).
  { rewrite Hself. unfold inspectable. now rewrite Ha. }
  assert (Ir : inspectable (refresh_token_data (self w')) = true).
  { rewrite Hself. unfold inspectable. now rewrite Hr. }
  assert (Ea : forall now, valid_at now (auth_token_data (self w)) = false).
  { intros now. destruct (valid_at now _) eqn:E; [|reflexivity].
    destruct (valid_at_dict _ _ E) as [d Hd]. rewrite Hd in *.
    destruct d; [discriminate E | discriminate Ha]. }
  assert (Er : forall now, valid_at now (refresh_token_data (self w)) = false).
  { intros now. destruct (valid_at now _) eqn:E; [|reflexivity].
    destruct (valid_at_dict _ _ E) as [d Hd]. rewrite Hd in *.
    destruct d; [discriminate E | discriminate Hr]. }
  split.
  - pose proof (get_valid_token_gives_up w' Ia Ir) as Hnone.
    rewrite Hself in Hnone. eexists. apply Hnone; [apply Ea | apply Er].
  - unfold check_token_status. unfold bind at 1. unfold get_self at 1. cbv beta iota.
    rewrite Hself.
    unfold bind at 1. rewrite (status_of_eq (auth_token_data (self w)) w'); cbv zeta.
    2:{ rewrite <- Hself. exact Ia. }
    unfold bind at 1. rewrite (status_of_eq (refresh_token_data (self w))); cbv zeta.
    2:{ rewrite <- Hself. exact Ir. }
    unfold bind at 1. rewrite (status_of_eq (invite_code_data (self w))) by exact Hi.
    cbv zeta. rewrite Ha, Hr. unfold ret. eexists. eexists. reflexivity.
Qed.

(** *** Further properties of the token calls *)

(** A record that cannot be inspected makes [_has_not_expired] raise. *)
Lemma has_not_expired_not_inspectable (data : pyval) (w : world) :
  inspectable data = false -> has_not_expired data w = (Raised TypeError, w).
Proof.
  unfold inspectable, _has_not_expired.
  destruct data as [|b|n|f|s|l|d]; simpl; rewrite ?orb_true_r, ?orb_false_r;
    try discriminate; intros H; apply negb_false_iff in H; simpl in H;
    rewrite H; reflexivity.
Qed.

(** What [refresh_auth_token] leaves alone: the invite and refresh
    records in memory, and every file but the access token's. *)
Lemma refresh_auth_token_frame (w : world) :
  only_access_record_touched w (snd (refresh_auth_token' w)).
Proof.
  unfold refresh_auth_token, bind at 1, get_self.
  destruct (truthy (refresh_token_data (self w))) eqn:Ht; simpl.
  2:{ unfold bind, ret; simpl. repeat split; auto. }
  unfold bind at 1. unfold bind at 1.
  expiry_check (refresh_token_data (self w)) w; exec;
    (split; [reflexivity|]; split; [reflexivity|]; intros k Hk; simpl;
     rewrite ?lookup_insert_ne by congruence; reflexivity).
Qed.

(** Whatever relation between the state before and after holds of
    [refresh_auth_token], is kept by reading the clock and holds of a
    state and itself, holds of [get_valid_token]: the call does nothing
    else to the state. *)
Lemma get_valid_token_effect (R : world -> world -> Prop) :
  (forall w, R w w) ->
  (forall w w', R (tick w) w' -> R w w') ->
  (forall w, R w (snd (refresh_auth_token' w))) ->
  forall w, R w (snd (get_valid_token' w)).
Proof.
  intros Hrefl Htick Hrefresh w.
  assert (Hgo : forall w2 (b : bool), R w2
            (snd (bind (if b then refresh_auth_token' else ret false)
                    (fun refreshed =>
                       if refreshed : bool then
                         bind get_self (fun me' =>
                           lift (py_get (auth_token_data me') "access_token" PNone))
                       else ret PNone) w2))).
  { intros w2 [|].
    - unfold bind at 1. pose proof (Hrefresh w2) as H.
      destruct (refresh_auth_token' w2) as [[[|]|e] w3]; simpl in H;
        unfold bind, get_self, lift, ret; simpl; exact H.
    - simpl. apply Hrefl. }
  assert (Hrest : forall w1, R w1
            (snd (bind (if truthy (refresh_token_data (self w))
                        then has_not_expired (refresh_token_data (self w))
                        else ret false)
                    (fun have_refresh =>
                       bind (if have_refresh : bool then refresh_auth_token' else ret false)
                         (fun refreshed =>
                            if refreshed : bool then
                              bind get_self (fun me' =>
                                lift (py_get (auth_token_data me') "access_token" PNone))
                            else ret PNone)) w1))).
  { intros w1. unfold bind at 1.
    destruct (truthy (refresh_token_data (self w))).
    - expiry_check (refresh_token_data (self w)) w1; cbv beta iota;
        first [ apply (Hgo _ true) | apply (Hgo _ false)
              | apply Htick; apply (Hgo _ true) | apply Htick; apply (Hgo _ false)
              | apply Hrefl | apply Htick; apply Hrefl ].
    - apply (Hgo _ false). }
  unfold get_valid_token. unfold bind at 1. unfold get_self at 1. cbv beta iota.
  unfold bind at 1.
  destruct (truthy (auth_token_data (self w))).
  - expiry_check (auth_token_data (self w)) w; cbv beta iota;
      first [ apply Hrest | apply Htick; apply Hrest
            | unfold lift; simpl; apply Hrefl
            | unfold lift; simpl; apply Htick; apply Hrefl ].
  - apply Hrest.
Qed.

(** [get_valid_token] and [refresh_auth_token] touch nothing but the
    AccessRecord: the invite and refresh records in memory stay, and so
    does every file other than the access token's.  This holds for every
    state and every server, also when the call raises. *)
Theorem token_calls_touch_only_the_access_record (w : world) :
  only_access_record_touched w (snd (refresh_auth_token' w))
  /\ only_access_record_touched w (snd (get_valid_token' w)).
Proof.
  split; [apply refresh_auth_token_frame|].
  apply (get_valid_token_effect only_access_record_touched).
  - intros w0. repeat split; auto.
  - intros w0 w' H. exact H.
  - apply refresh_auth_token_frame.
Qed.

(** On a refresh record that cannot be inspected the refresh raises at
    once. *)
Lemma refresh_auth_token_not_inspectable (w : world) :
  inspectable (refresh_token_data (self w)) = false ->
  refresh_auth_token' w = (Raised TypeError, w).
Proof.
  intros Hi.
  assert (Ht : truthy (refresh_token_data (self w)) = true).
  { unfold inspectable in Hi. apply orb_false_iff in Hi as [Hi _].
    now apply negb_false_iff in Hi. }
  unfold refresh_auth_token, bind at 1, get_self. cbv beta iota.
  rewrite Ht. simpl negb. cbv iota.
  unfold bind at 1. unfold bind at 1.
  rewrite (has_not_expired_not_inspectable _ w Hi). reflexivity.
Qed.

(** A refresh that fails before its validation leaves no trace: unless
    both the refresh request and the validation request were sent, the
    in-memory records and the files are what they were and the result is
    not [True].  This covers the transport failure, the 4xx and 5xx
    answers (401 among them), the body that does not decode, the answer
    without [token] and the unusable [expiresIn]. *)
Theorem refresh_auth_token_fails_without_trace (w : world) :
  (length (net_log (snd (refresh_auth_token' w))) < length (net_log w) + 2)%nat ->
  self (snd (refresh_auth_token' w)) = self w
  /\ fs (snd (refresh_auth_token' w)) = fs w
  /\ fst (refresh_auth_token' w) <> Returned true.
Proof.
  destruct (inspectable (refresh_token_data (self w))) eqn:Hi.
  - unfold refresh_auth_token. exec; intros Hlen; simpl in Hlen;
      rewrite ?length_app in Hlen; simpl in Hlen; try lia;
      (split; [reflexivity|]; split; [reflexivity|]; discriminate).
  - rewrite (refresh_auth_token_not_inspectable w Hi). simpl.
    intros _. split; [reflexivity|]. split; [reflexivity | discriminate].
Qed.

(** [refresh_auth_token] says [True] only for a token the server has
    confirmed: the refresh record was valid and held a truthy refresh
    token, the answer to the refresh request was not a 4xx or 5xx and
    carried [token], the details endpoint then vouched for that very
    token, exactly these two requests were sent, and that token is the one
    now in memory. *)
Theorem refresh_auth_token_true_means_confirmed (w w' : world) :
  refresh_auth_token' w = (Returned true, w') ->
  exists rt st td tok created expiration,
    valid_at (clock (ticks w)) (refresh_token_data (self w)) = true
    /\ py_get (refresh_token_data (self w)) "refresh_token" PNone = Returned rt
    /\ truthy rt = true
    /\ remote (net_log w) (token_request rt) = NetResponse st (Some (PDict td))
    /\ (400 <=? st) && (st <? 600) = false
    /\ dict_lookup "token" td = Some tok
    /\ verdict_of (details_of (remote (net_log w ++ [token_request rt])
                                 (details_request tok))) = Returned true
    /\ net_log w' = net_log w ++ [token_request rt; details_request tok]
    /\ auth_token_data (self w') = access_record tok created expiration.
Proof.
  destruct (inspectable (refresh_token_data (self w))) eqn:Hi.
  2:{ rewrite (refresh_auth_token_not_inspectable w Hi). discriminate. }
  unfold refresh_auth_token, isValid.
  exec; intros H; try discriminate H.
  all: injection H as <-.
  all: match goal with
       | G : py_getitem _ "token" = Returned _ |- _ =>
           destruct (py_getitem_Returned _ _ _ G) as (td & -> & Hl)
       end.
  all: match goal with
       | G : negb (truthy _) = false |- _ => apply negb_false_iff in G
       end.
  all: match goal with
       | G : negb (_ <? _) = false |- _ => apply negb_false_iff in G
       end.
  all: do 6 eexists.
  all: split; [eassumption|].
  all: split; [reflexivity|].
  all: split; [eassumption|].
  all: split; [eassumption|].
  all: split; [eassumption|].
  all: split; [exact Hl|].
  all: split; [eassumption|].
  all: split; [simpl; rewrite <- app_assoc; reflexivity | reflexivity].
Qed.

Lemma refresh_auth_token_in_step (w : world) :
  disk (disk_ops w) = true ->
  access_record_in_step w ->
  access_record_in_step (snd (refresh_auth_token' w)).
Proof.
  intros Hd Hc.
  destruct (inspectable (refresh_token_data (self w))) eqn:Hi.
  2:{ rewrite (refresh_auth_token_not_inspectable w Hi). exact Hc. }
  unfold refresh_auth_token. unfold access_record_in_step in *.
  exec; try exact Hc; try congruence.
  all: apply lookup_insert_eq.
Qed.

(** While the disk takes the write, the access token's file and the
    in-memory AccessRecord stay equal through [refresh_auth_token] and
    [get_valid_token]: a token adopted in memory is the token on disk. *)
Theorem token_calls_keep_file_and_memory_in_step (w : world) :
  disk (disk_ops w) = true ->
  access_record_in_step w ->
  access_record_in_step (snd (refresh_auth_token' w))
  /\ access_record_in_step (snd (get_valid_token' w)).
Proof.
  intros Hd Hc. split; [now apply refresh_auth_token_in_step|].
  apply (get_valid_token_effect
           (fun w w' => disk (disk_ops w) = true ->
                        access_record_in_step w -> access_record_in_step w')); auto.
  intros w0. apply refresh_auth_token_in_step.
Qed.

(** *** Expiry and the cache *)

(** Expiry is final: a record found expired at one clock reading is
    found expired at every later one. *)
Theorem has_not_expired_stays_false (data : pyval) (w1 w2 : world) :
  inspectable data = true ->
  clock (ticks w1) <= clock (ticks w2) ->
  fst (has_not_expired data w1) = Returned false ->
  fst (has_not_expired data w2) = Returned false.
Proof.
  intros Hi Hle. rewrite !has_not_expired_valid_at by exact Hi.
  unfold isValid. destruct (expiration_of fromisoformat data) as [e|]; [|auto].
  intros [= H]. f_equal. apply Z.ltb_ge in H. apply Z.ltb_ge. lia.
Qed.

(** With a valid AccessRecord the token comes from memory. *)
Lemma get_valid_token_cached (w : world) :
  valid_at (clock (ticks w)) (auth_token_data (self w)) = true ->
  get_valid_token' w = (Returned (access_token_of (auth_token_data (self w))), tick w).
Proof.
  intros Hv. pose proof (valid_at_inspectable _ _ Hv) as Ha.
  unfold get_valid_token.
  unfold bind at 1; unfold get_self at 1; cbv beta iota.
  unfold bind at 1; rewrite (guarded_check_eq (auth_token_data (self w)) w Ha).
  rewrite Hv. destruct (valid_at_dict _ _ Hv) as [d Hd].
  unfold after_check, isValid in *.
  destruct (expiration_of fromisoformat (auth_token_data (self w))); [|discriminate].
  unfold lift. rewrite Hd. reflexivity.
Qed.

(** A truthy result of [get_valid_token] is the access token that is in
    memory when the call returns. *)
Lemma get_valid_token_result (w : world) :
  inspectable (auth_token_data (self w)) = true ->
  inspectable (refresh_token_data (self w)) = true ->
  exists v w',
    get_valid_token' w = (Returned v, w')
    /\ (truthy v = true -> v = access_token_of (auth_token_data (self w'))).
Proof.
  intros Ha Hr.
  destruct (valid_at (clock (ticks w)) (auth_token_data (self w))) eqn:Hv.
  { rewrite (get_valid_token_cached w Hv). do 2 eexists. split; [reflexivity|].
    intros _. reflexivity. }
  set (w1 := after_check fromisoformat (auth_token_data (self w)) w).
  destruct (valid_at (clock (ticks w1)) (refresh_token_data (self w))) eqn:Hvr.
  2:{ destruct (get_valid_token_gives_up w Ha Hr Hv Hvr) as [E _]. rewrite E.
      do 2 eexists. split; [reflexivity | discriminate]. }
  unfold get_valid_token.
  unfold bind at 1; unfold get_self at 1; cbv beta iota.
  unfold bind at 1; rewrite (guarded_check_eq (auth_token_data (self w)) w Ha).
  fold w1. rewrite Hv.
  unfold bind at 1. rewrite (guarded_check_eq (refresh_token_data (self w)) w1 Hr).
  rewrite Hvr.
  set (w2 := after_check fromisoformat (refresh_token_data (self w)) w1).
  assert (Hr2 : inspectable (refresh_token_data (self w2)) = true).
  { unfold w2, w1. rewrite !after_check_self. exact Hr. }
  destruct (refresh_auth_token_returns w2 Hr2) as (ok & w3 & Hrun).
  unfold bind at 1. rewrite Hrun.
  destruct ok.
  - destruct (refresh_auth_token_success w2 w3 Hr2 Hrun)
      as (rt & st & td & tok & c & e & _ & _ & Hrec).
    unfold bind, get_self, lift. rewrite Hrec. simpl.
    do 2 eexists. split; [reflexivity|]. intros _. rewrite Hrec. reflexivity.
  - do 2 eexists. split; [reflexivity | discriminate].
Qed.

(** Asking twice.  When [get_valid_token] has returned a token and the
    AccessRecord in memory is still valid at the next clock reading, a
    second call returns the same token from memory: no request is sent
    and nothing is written. *)
Theorem get_valid_token_twice (w w1 : world) (v : pyval) :
  inspectable (auth_token_data (self w)) = true ->
  inspectable (refresh_token_data (self w)) = true ->
  get_valid_token' w = (Returned v, w1) ->
  truthy v = true ->
  valid_at (clock (ticks w1)) (auth_token_data (self w1)) = true ->
  get_valid_token' w1 = (Returned v, tick w1)
  /\ net_log (tick w1) = net_log w1
  /\ fs (tick w1) = fs w1
  /\ self (tick w1) = self w1.
Proof.
  intros Ha Hr Hrun Hv Hvalid.
  destruct (get_valid_token_result w Ha Hr) as (v' & w' & Hrun' & Hprov).
  rewrite Hrun in Hrun'. injection Hrun' as <- <-.
  rewrite (get_valid_token_cached w1 Hvalid), <- (Hprov Hv). auto.
Qed.

(** *** Renewal, end to end *)

Lemma refresh_auth_token_succeeds
    (w : world) (rt tok : pyval) (st seconds : Z) (td : list (string * pyval)) :
  let record := refresh_token_data (self w) in
  let now := clock (S (ticks w)) in
  let auth_data :=
    access_record tok (isoformat (utc now)) (isoformat (utc (now + seconds))) in
  valid_at (clock (ticks w)) record = true ->
  py_get record "refresh_token" PNone = Returned rt ->
  truthy rt = true ->
  remote (net_log w) (token_request rt) = NetResponse st (Some (PDict td)) ->
  (400 <=? st) && (st <? 600) = false ->
  dict_lookup "token" td = Some tok ->
  timedelta float_microseconds US_PER_SECOND
    match dict_lookup "expiresIn" td with Some v => v | None => PInt 86400 end
    = Returned seconds ->
  (0 <=? now + seconds) && (now + seconds <? DATETIME_END) = true ->
  verdict_of (details_of (remote (net_log w ++ [token_request rt]) (details_request tok)))
    = Returned true ->
  exists w',
    refresh_auth_token' w = (Returned true, w')
    /\ auth_token_data (self w') = auth_data
    /\ net_log w' = net_log w ++ [token_request rt; details_request tok]
    /\ (disk (disk_ops w) = true -> fs w' !! AUTH_TOKEN_FILE = Some (FJson auth_data)).
Proof.
  intros record now auth_data Hv Hrt Htruthy Hrem Hst Htok Htd Hrange Hverdict.
  pose proof (valid_at_inspectable _ _ Hv) as Hi.
  assert (Hexp : exists e, expiration_of fromisoformat record = Some e
                           /\ (clock (ticks w) <? e) = true).
  { unfold isValid in Hv. destruct (expiration_of fromisoformat record) as [e|];
      [eauto | discriminate]. }
  destruct Hexp as (e & Hexp & Hlt). clear Hv.
  assert (Htr : truthy record = true).
  { destruct (expiration_of_dict _ _ Hexp) as [rd Hrd]. rewrite Hrd in *.
    destruct rd; [discriminate Hexp | reflexivity]. }
  assert (Hadd : datetime_add {| dt_wall := clock (S (ticks w)); dt_tzinfo := Some 0 |}
                   seconds = Returned (utc (now + seconds))).
  { unfold datetime_add. simpl dt_wall. fold now. rewrite Hrange. reflexivity. }
  clear Hrange.
  assert (Hin : py_contains "token" (PDict td) = Returned true).
  { simpl. now rewrite Htok. }
  assert (Hget : py_get (PDict td) "expiresIn" (PInt 86400)
                 = Returned match dict_lookup "expiresIn" td with
                            | Some v => v
                            | None => PInt 86400
                            end) by reflexivity.
  assert (Hitem : py_getitem (PDict td) "token" = Returned tok).
  { simpl. now rewrite Htok. }
  unfold record in *. clear record.
  unfold token_request in *.
  unfold refresh_auth_token.
  repeat first
    [ match goal with H : ?l = _ |- context [?l] => progress rewrite H end
    | exec_step ].
  all: try congruence.
  all: eexists; split; [reflexivity|]; split; [reflexivity|];
       split; [simpl; rewrite <- app_assoc; reflexivity|]; intros Hd; try congruence.
  all: simpl; rewrite lookup_insert_eq; reflexivity.
Qed.

(** Renewal through [get_valid_token].  The AccessRecord is not valid,
    the RefreshRecord is valid at the two readings that check it and
    holds a truthy refresh token, the server answers the refresh request
    with a status outside 4xx and 5xx and a body with [token] and a usable
    [expiresIn], and the details endpoint vouches for the token: then
    [get_valid_token] returns that token, the new AccessRecord is in
    memory, created at the third clock reading and expiring [expiresIn]
    seconds later, the two requests are all that was sent, and the record
    is in its file when the write went through. *)
Theorem get_valid_token_renews
    (w : world) (rt tok : pyval) (st seconds : Z) (td : list (string * pyval)) :
  let auth := auth_token_data (self w) in
  let refresh := refresh_token_data (self w) in
  let w1 := after_check fromisoformat auth w in
  let now := clock (S (S (ticks w1))) in
  let auth_data :=
    access_record tok (isoformat (utc now)) (isoformat (utc (now + seconds))) in
  inspectable auth = true ->
  valid_at (clock (ticks w)) auth = false ->
  valid_at (clock (ticks w1)) refresh = true ->
  valid_at (clock (S (ticks w1))) refresh = true ->
  py_get refresh "refresh_token" PNone = Returned rt ->
  truthy rt = true ->
  remote (net_log w) (token_request rt) = NetResponse st (Some (PDict td)) ->
  (400 <=? st) && (st <? 600) = false ->
  dict_lookup "token" td = Some tok ->
  timedelta float_microseconds US_PER_SECOND
    match dict_lookup "expiresIn" td with Some v => v | None => PInt 86400 end
    = Returned seconds ->
  (0 <=? now + seconds) && (now + seconds <? DATETIME_END) = true ->
  verdict_of (details_of (remote (net_log w ++ [token_request rt]) (details_request tok)))
    = Returned true ->
  exists w',
    get_valid_token' w = (Returned tok, w')
    /\ auth_token_data (self w') = auth_data
    /\ net_log w' = net_log w ++ [token_request rt; details_request tok]
    /\ (disk (disk_ops w) = true -> fs w' !! AUTH_TOKEN_FILE = Some (FJson auth_data)).
Proof.
  intros auth refresh w1 now auth_data Ha Hv Hr1 Hr2 Hrt Htruthy Hrem Hst Htok Htd
    Hrange Hverdict.
  pose proof (valid_at_inspectable _ _ Hr1) as Hr.
  set (w2 := after_check fromisoformat refresh w1).
  assert (Hw2 : w2 = tick w1).
  { unfold w2, after_check. unfold isValid in Hr1.
    destruct (expiration_of fromisoformat refresh); [reflexivity | discriminate]. }
  assert (Hself : self w2 = self w).
  { unfold w2, w1. now rewrite !after_check_self. }
  assert (Hnet : net_log w2 = net_log w).
  { unfold w2, w1. now rewrite !after_check_net_log. }
  assert (Hdisk : disk_ops w2 = disk_ops w).
  { unfold w2, w1. now rewrite !after_check_disk_ops. }
  destruct (refresh_auth_token_succeeds w2 rt tok st seconds td) as (w' & Hrun & Hmem & Hlog & Hfile).
  - rewrite Hself, Hw2. exact Hr2.
  - rewrite Hself. exact Hrt.
  - exact Htruthy.
  - rewrite Hnet. exact Hrem.
  - exact Hst.
  - exact Htok.
  - exact Htd.
  - rewrite Hw2. exact Hrange.
  - rewrite Hnet. exact Hverdict.
  - exists w'. rewrite Hnet in Hlog. rewrite Hdisk in Hfile.
    rewrite Hw2 in Hmem, Hfile. simpl ticks in Hmem, Hfile.
    split; [|split; [exact Hmem | split; [exact Hlog | exact Hfile]]].
    unfold get_valid_token.
    unfold bind at 1; unfold get_self at 1; cbv beta iota.
    unfold bind at 1; rewrite (guarded_check_eq (auth_token_data (self w)) w Ha).
    fold auth w1. rewrite Hv.
    unfold bind at 1. rewrite (guarded_check_eq (refresh_token_data (self w)) w1 Hr).
    fold refresh w2. rewrite Hr1.
    unfold bind at 1. rewrite Hrun.
    unfold bind, get_self, lift. rewrite Hmem. reflexivity.
Qed.

(** *** Setup *)

(** The footprint of [setup_with_invite_code].  It never raises; it
    sends no request for an empty invite code and otherwise exactly one,
    the setup request carrying the code; it reads the clock at most once;
    and of the files it can touch only the three of the manager. *)
Theorem setup_with_invite_code_footprint
    (invite_code expiration_days : pyval) (w : world) :
  let r := setup_with_invite_code' invite_code expiration_days w in
  (exists b, fst r = Returned b)
  /\ net_log (snd r)
     = net_log w ++ (if truthy invite_code then [setup_request invite_code] else [])
  /\ (ticks w <= ticks (snd r) <= S (ticks w))%nat
  /\ forall k, k <> AUTH_TOKEN_FILE -> k <> REFRESH_TOKEN_FILE -> k <> INVITE_CODE_FILE ->
               fs (snd r) !! k = fs w !! k.
Proof.
  cbv zeta. unfold setup_with_invite_code, os_path_exists, os_remove, setup_request.
  exec.
  all: try (exfalso; simpl in *; congruence).
  all: split; [eexists; reflexivity|].
  all: split; [simpl; rewrite ?app_nil_r; reflexivity|].
  all: split; [simpl; lia|].
  all: intros k Ha Hr Hi; simpl;
       rewrite ?lookup_delete_ne by congruence;
       rewrite ?lookup_insert_ne by congruence; reflexivity.
Qed.

(** The invite code's file goes exactly when the setup succeeds: after a
    call that returns [True] there is no such file, after any other call
    the file is what it was. *)
Theorem setup_with_invite_code_invite_file
    (invite_code expiration_days : pyval) (w : world) :
  let r := setup_with_invite_code' invite_code expiration_days w in
  match fst r with
  | Returned true => fs (snd r) !! INVITE_CODE_FILE = None
  | _ => fs (snd r) !! INVITE_CODE_FILE = fs w !! INVITE_CODE_FILE
  end.
Proof.
  cbv zeta. unfold setup_with_invite_code, os_path_exists, os_remove.
  exec.
  all: simpl; rewrite ?lookup_delete_eq; try reflexivity.
  all: rewrite ?lookup_insert_ne by done; try reflexivity.
  all: repeat match goal with
         | H : context [<[_:=_]> _ !! INVITE_CODE_FILE] |- _ =>
             rewrite lookup_insert_ne in H by done
         end.
  all: congruence.
Qed.

(** *** Files and construction *)

Local Abbreviation init' := (__init__).

(** [_load_file] by the content of the file. *)
Lemma load_file_eq (filename : string) (w : world) :
  _load_file filename w =
    (match fs w !! filename with
     | Some (FJson v) => Returned v
     | Some FUndecodable => Raised UnicodeDecodeError
     | _ => Returned (PDict [])
     end, w).
Proof.
  unfold _load_file, bind, os_path_exists, os_path_getsize_positive, try_except,
    open_and_load, ret, raise.
  destruct (fs w !! filename) as [[v| | | |]|] eqn:E; simpl; rewrite ?E; reflexivity.
Qed.




(** *** Status *)

(** [check_token_status] on any three inspectable records: it returns
    (never raises), [exists] is the truth value of the record, a present
    record whose expiration is missing or does not parse is reported as
    not valid and expired whatever the clock says, and the call sends
    nothing, writes nothing, changes no record and reads the clock at most
    six times. *)
Theorem check_token_status_reads_only (w : world) :
  let auth := auth_token_data (self w) in
  let refresh := refresh_token_data (self w) in
  let invite := invite_code_data (self w) in
  let unparseable data valid expired :=
    truthy data = true -> expiration_of fromisoformat data = None ->
    valid = PBool false /\ expired = PBool true in
  inspectable auth = true ->
  inspectable refresh = true ->
  inspectable invite = true ->
  exists va xa vr xr vi xi w',
    check_token_status' w =
      (Returned (PDict [("auth_token", status_entry (truthy auth) va xa);
                        ("refresh_token", status_entry (truthy refresh) vr xr);
                        ("invite_code", status_entry (truthy invite) vi xi)]),
       w')
    /\ unparseable auth va xa
    /\ unparseable refresh vr xr
    /\ unparseable invite vi xi
    /\ self w' = self w /\ fs w' = fs w /\ net_log w' = net_log w
    /\ disk_ops w' = disk_ops w
    /\ (ticks w <= ticks w' <= ticks w + 6)%nat.
Proof.
  intros auth refresh invite unparseable Ha Hr Hi.
  unfold check_token_status. unfold bind at 1. unfold get_self at 1. cbv beta iota.
  unfold bind at 1. rewrite (status_of_eq (auth_token_data (self w)) w Ha). cbv zeta.
  set (w1 := after_check fromisoformat (auth_token_data (self w)) w).
  set (w2 := after_check fromisoformat (auth_token_data (self w)) w1).
  unfold bind at 1. rewrite (status_of_eq (refresh_token_data (self w)) w2 Hr). cbv zeta.
  set (w3 := after_check fromisoformat (refresh_token_data (self w)) w2).
  set (w4 := after_check fromisoformat (refresh_token_data (self w)) w3).
  unfold bind at 1. rewrite (status_of_eq (invite_code_data (self w)) w4 Hi). cbv zeta.
  set (w5 := after_check fromisoformat (invite_code_data (self w)) w4).
  set (w6 := after_check fromisoformat (invite_code_data (self w)) w5).
  pose proof (after_check_ticks (auth_token_data (self w)) w) as T1.
  pose proof (after_check_ticks (auth_token_data (self w)) w1) as T2.
  pose proof (after_check_ticks (refresh_token_data (self w)) w2) as T3.
  pose proof (after_check_ticks (refresh_token_data (self w)) w3) as T4.
  pose proof (after_check_ticks (invite_code_data (self w)) w4) as T5.
  pose proof (after_check_ticks (invite_code_data (self w)) w5) as T6.
  fold w1 in T1, T2. fold w2 in T2, T3. fold w3 in T3, T4. fold w4 in T4, T5.
  fold w5 in T5, T6. fold w6 in T6.
  assert (Hun : forall data now1 now2,
             unparseable data
               (if truthy data then PBool (valid_at now1 data) else data)
               (if truthy data then PBool (negb (valid_at now2 data)) else data)).
  { intros data now1 now2 Ht He. rewrite Ht. unfold isValid. rewrite He. auto. }
  do 7 eexists. split; [reflexivity|].
  split; [apply Hun|]. split; [apply Hun|]. split; [apply Hun|].
  unfold w6, w5, w4, w3, w2, w1 in *.
  rewrite !after_check_self, !after_check_fs, !after_check_net_log,
    !after_check_disk_ops.
  repeat split; auto; lia.
Qed.


(** *** The driver *)

Variable unhashable_slice : exn.

Local Abbreviation main' :=
  (main clock remote disk torn fromisoformat isoformat float_microseconds unhashable_slice).

Local Abbreviation setup_from_invite_record' :=
  (setup_from_invite_record clock remote disk torn isoformat float_microseconds).

(** On a clock that never goes back, an expired record stays expired. *)
Lemma valid_at_stays_false (data : pyval) (i j : nat) :
  (forall i j : nat, (i <= j)%nat -> clock i <= clock j) ->
  (i <= j)%nat ->
  valid_at (clock i) data = false ->
  valid_at (clock j) data = false.
Proof.
  intros Hmono Hij. unfold isValid.
  destruct (expiration_of fromisoformat data) as [e|]; [|auto].
  intros H. apply Z.ltb_ge in H. apply Z.ltb_ge. specialize (Hmono i j Hij). lia.
Qed.

(** The status of three inspectable records, entry by entry. *)
Lemma check_token_status_eq (w : world) :
  let auth := auth_token_data (self w) in
  let refresh := refresh_token_data (self w) in
  let invite := invite_code_data (self w) in
  let w1 := after_check fromisoformat auth w in
  let w2 := after_check fromisoformat auth w1 in
  let w3 := after_check fromisoformat refresh w2 in
  let w4 := after_check fromisoformat refresh w3 in
  let w5 := after_check fromisoformat invite w4 in
  let entry data wa wb :=
    status_entry (truthy data)
      (if truthy data then PBool (valid_at (clock (ticks wa)) data) else data)
      (if truthy data then PBool (negb (valid_at (clock (ticks wb)) data)) else data) in
  inspectable auth = true ->
  inspectable refresh = true ->
  inspectable invite = true ->
  check_token_status' w =
    (Returned (PDict [("auth_token", entry auth w w1);
                      ("refresh_token", entry refresh w2 w3);
                      ("invite_code", entry invite w4 w5)]),
     after_status fromisoformat w).
Proof.
  cbv zeta. intros Ha Hr Hi.
  unfold check_token_status. unfold bind at 1. unfold get_self at 1. cbv beta iota.
  unfold bind at 1. rewrite (status_of_eq (auth_token_data (self w)) w Ha). cbv zeta.
  unfold bind at 1. rewrite (status_of_eq (refresh_token_data (self w)) _ Hr). cbv zeta.
  unfold bind at 1. rewrite (status_of_eq (invite_code_data (self w)) _ Hi). cbv zeta.
  reflexivity.
Qed.

(** What [setup_with_invite_code] does to the state besides the files. *)
Lemma setup_with_invite_code_effect
    (invite_code expiration_days : pyval) (w : world) :
  exists b w',
    setup_with_invite_code' invite_code expiration_days w = (Returned b, w')
    /\ self w' = self w
    /\ (ticks w <= ticks w')%nat
    /\ net_log w' = net_log w ++ (if truthy invite_code then [setup_request invite_code] else []).
Proof.
  unfold setup_with_invite_code, os_path_exists, os_remove, setup_request.
  exec.
  all: try (exfalso; simpl in *; congruence).
  all: do 2 eexists; split; [reflexivity|]; split; [reflexivity|];
       split; [simpl; lia|]; simpl; rewrite ?app_nil_r; reflexivity.
Qed.

(** Without a refresh record [get_valid_token] answers from memory or
    gives up. *)
Lemma get_valid_token_no_refresh_record (w : world) :
  inspectable (auth_token_data (self w)) = true ->
  truthy (refresh_token_data (self w)) = false ->
  get_valid_token' w =
    (Returned (if valid_at (clock (ticks w)) (auth_token_data (self w))
               then access_token_of (auth_token_data (self w)) else PNone),
     after_check fromisoformat (auth_token_data (self w)) w).
Proof.
  intros Ha Ht.
  assert (Hr : inspectable (refresh_token_data (self w)) = true).
  { unfold inspectable. now rewrite Ht. }
  assert (He : expiration_of fromisoformat (refresh_token_data (self w)) = None).
  { destruct (refresh_token_data (self w)) as [| | | | | |[|]]; try reflexivity; discriminate. }
  destruct (valid_at (clock (ticks w)) (auth_token_data (self w))) eqn:Hv.
  - rewrite (get_valid_token_cached w Hv). unfold after_check, isValid in *.
    destruct (expiration_of fromisoformat (auth_token_data (self w)));
      [reflexivity | discriminate].
  - destruct (get_valid_token_gives_up w Ha Hr Hv) as [E _].
    + unfold isValid. now rewrite He.
    + rewrite E. unfold after_check at 1. now rewrite He.
Qed.

(** [get_valid_token] never talks to the setup endpoint. *)
Lemma get_valid_token_no_setup_request (w : world) :
  exists l, net_log (snd (get_valid_token' w)) = net_log w ++ l
            /\ existsb is_setup_request l = false.
Proof.
  apply (get_valid_token_effect
           (fun w w' => exists l, net_log w' = net_log w ++ l
                                  /\ existsb is_setup_request l = false)).
  - intros w0. exists []. split; [now rewrite app_nil_r | reflexivity].
  - intros w0 w' H. exact H.
  - intros w0. destruct (refresh_auth_token_traffic w0) as (l & Hl & Ht).
    exists l. split; [exact Hl|].
    destruct Ht as [->|[[rt ->]|(rt & tok & ->)]]; reflexivity.
Qed.

(** The constructor changes the in-memory records only; when a file
    holds bytes that are not text, [UnicodeDecodeError] leaves it and no
    manager is built. *)
Lemma init_eq (w : world) :
  (exists m, init' w = (Returned tt,
                        {| self := m; fs := fs w; net_log := net_log w; ticks := ticks w;
                           disk_ops := disk_ops w |}))
  \/ init' w = (Raised UnicodeDecodeError, w).
Proof.
  unfold __init__, bind. rewrite !load_file_eq.
  destruct (fs w !! INVITE_CODE_FILE) as [[| | | |]|];
    destruct (fs w !! REFRESH_TOKEN_FILE) as [[| | | |]|];
    destruct (fs w !! AUTH_TOKEN_FILE) as [[| | | |]|];
    first [ right; reflexivity | left; eexists; reflexivity ].
Qed.

(** The two conditions of the driver on a status with given entries. *)
Lemma need_setup_eq (ea er ei : bool) (va xa vr xr vi xi : pyval) (w : world) :
  let status := PDict [("auth_token", status_entry ea va xa);
                       ("refresh_token", status_entry er vr xr);
                       ("invite_code", status_entry ei vi xi)] in
  and_also (status_flag status "auth_token" "expired")
    (and_also (status_flag status "refresh_token" "expired")
       (and_also (status_flag status "invite_code" "exists")
          (status_flag status "invite_code" "valid"))) w
  = (Returned (truthy xa && (truthy xr && (ei && truthy vi))), w)
  /\ and_also (status_flag status "invite_code" "exists")
       (and_also (status_flag status "invite_code" "valid")
          (bind (status_flag status "refresh_token" "exists")
             (fun exists_ => ret (negb exists_)))) w
     = (Returned (ei && (truthy vi && negb er)), w).
Proof.
  cbv zeta. unfold and_also, status_flag, bind, lift, ret, status_entry. simpl.
  destruct (truthy xa), (truthy xr), ei, (truthy vi), er; split; reflexivity.
Qed.

Local Abbreviation setup_if_expired' :=
  (setup_if_expired clock remote disk torn fromisoformat isoformat float_microseconds).

Local Abbreviation retry_with_invite' :=
  (retry_with_invite clock remote disk torn fromisoformat isoformat float_microseconds
     unhashable_slice).

Lemma after_check_twice_ticks (data : pyval) (w : world) :
  (ticks w <= ticks (after_check fromisoformat data (after_check fromisoformat data w))
   <= ticks w + 2)%nat.
Proof.
  pose proof (after_check_ticks data w).
  pose proof (after_check_ticks data (after_check fromisoformat data w)). lia.
Qed.

(** The setup with the code of the invite record, when that record is a
    dictionary. *)
Lemma setup_from_invite_record_effect (w : world) (d : list (string * pyval)) :
  invite_code_data (self w) = PDict d ->
  exists b w' sl,
    setup_from_invite_record' w = (Returned b, w')
    /\ self w' = self w
    /\ (ticks w <= ticks w')%nat
    /\ net_log w' = net_log w ++ sl.
Proof.
  intros Hd. unfold setup_from_invite_record, bind at 1, get_self.
  unfold bind at 1, lift. rewrite Hd. simpl py_get. cbv beta iota.
  match goal with
  | |- context [setup_with_invite_code' ?c ?e w] =>
      destruct (setup_with_invite_code_effect c e w) as (b & w' & -> & Hs & Ht & Hl)
  end.
  eauto 10.
Qed.

Lemma after_status_frame (w : world) :
  self (after_status fromisoformat w) = self w
  /\ net_log (after_status fromisoformat w) = net_log w
  /\ (ticks w <= ticks (after_status fromisoformat w) <= ticks w + 6)%nat.
Proof.
  unfold after_status. cbv zeta.
  rewrite !after_check_self, !after_check_net_log.
  split; [reflexivity|]. split; [reflexivity|].
  set (a := auth_token_data (self w)). set (r := refresh_token_data (self w)).
  set (i := invite_code_data (self w)).
  pose proof (after_check_twice_ticks a w) as T1.
  pose proof (after_check_twice_ticks r
                (after_check fromisoformat a (after_check fromisoformat a w))) as T2.
  pose proof (after_check_twice_ticks i
                (after_check fromisoformat r (after_check fromisoformat r
                   (after_check fromisoformat a (after_check fromisoformat a w))))) as T3.
  lia.
Qed.

(** The flags the driver reads off a status, each tied to the clock
    reading behind it. *)
Lemma check_token_status_flags (w : world) :
  let auth := auth_token_data (self w) in
  let refresh := refresh_token_data (self w) in
  let invite := invite_code_data (self w) in
  inspectable auth = true ->
  inspectable refresh = true ->
  inspectable invite = true ->
  exists va xa vr xr vi xi ta tr ti,
    check_token_status' w =
      (Returned (PDict [("auth_token", status_entry (truthy auth) va xa);
                        ("refresh_token", status_entry (truthy refresh) vr xr);
                        ("invite_code", status_entry (truthy invite) vi xi)]),
       after_status fromisoformat w)
    /\ (ticks w <= ta <= ticks (after_status fromisoformat w))%nat
    /\ (ticks w <= tr <= ticks (after_status fromisoformat w))%nat
    /\ (ticks w <= ti <= ticks (after_status fromisoformat w))%nat
    /\ truthy xa = truthy auth && negb (valid_at (clock ta) auth)
    /\ truthy xr = truthy refresh && negb (valid_at (clock tr) refresh)
    /\ truthy vi = truthy invite && valid_at (clock ti) invite.
Proof.
  intros auth refresh invite Ha Hr Hi.
  rewrite (check_token_status_eq w Ha Hr Hi). cbv zeta.
  fold auth refresh invite.
  set (w1 := after_check fromisoformat auth w).
  set (w2 := after_check fromisoformat auth w1).
  set (w3 := after_check fromisoformat refresh w2).
  set (w4 := after_check fromisoformat refresh w3).
  set (w5 := after_check fromisoformat invite w4).
  assert (H6 : after_status fromisoformat w = after_check fromisoformat invite w5) by reflexivity.
  pose proof (after_check_ticks auth w) as T1.
  pose proof (after_check_ticks auth w1) as T2.
  pose proof (after_check_ticks refresh w2) as T3.
  pose proof (after_check_ticks refresh w3) as T4.
  pose proof (after_check_ticks invite w4) as T5.
  pose proof (after_check_ticks invite w5) as T6.
  fold w1 in T1, T2. fold w2 in T2, T3. fold w3 in T3, T4. fold w4 in T4, T5.
  fold w5 in T5, T6. rewrite <- H6 in T6.
  do 6 eexists. exists (ticks w1), (ticks w3), (ticks w4).
  split; [reflexivity|].
  split; [lia|]. split; [lia|]. split; [lia|].
  split; [|split].
  - destruct (truthy auth) eqn:E; simpl; rewrite ?E; reflexivity.
  - destruct (truthy refresh) eqn:E; simpl; rewrite ?E; reflexivity.
  - destruct (truthy invite) eqn:E; simpl; rewrite ?E; reflexivity.
Qed.

(** The last block of the driver, entered without a token, ends without
    a token: with a refresh record in memory it tries nothing, and without
    one the token it asks for after its setup is the one memory had. *)
Lemma retry_with_invite_effect (w : world) (v : pyval) :
  let auth := auth_token_data (self w) in
  let refresh := refresh_token_data (self w) in
  let invite := invite_code_data (self w) in
  inspectable auth = true ->
  inspectable refresh = true ->
  inspectable invite = true ->
  truthy v = false ->
  (truthy refresh = false ->
   forall k, (ticks w <= k)%nat ->
             truthy (if valid_at (clock k) auth then access_token_of auth else PNone) = false) ->
  exists v' w' sl,
    retry_with_invite' v w = (Returned v', w')
    /\ truthy v' = false
    /\ net_log w' = net_log w ++ sl.
Proof.
  intros auth refresh invite Ha Hr Hi Hv Hfalsy.
  destruct (check_token_status_flags w Ha Hr Hi)
    as (va & xa & vr & xr & vi & xi & ta & tr & ti & Hst & _ & _ & Hti & _ & _ & Hvi).
  destruct (after_status_frame w) as (Hself6 & Hnet6 & Ht6).
  fold auth refresh invite in Hst, Hvi.
  unfold retry_with_invite. unfold bind at 1. rewrite Hst.
  unfold bind at 1.
  rewrite (proj2 (need_setup_eq _ _ _ _ _ _ _ _ _ _)).
  destruct (truthy invite && (truthy vi && negb (truthy refresh))) eqn:Hretry.
  2:{ exists v, (after_status fromisoformat w), []. unfold ret.
      split; [reflexivity|]. split; [exact Hv|]. now rewrite app_nil_r. }
  apply andb_true_iff in Hretry as [Hti1 Hretry].
  apply andb_true_iff in Hretry as [Htvi Hnr]. apply negb_true_iff in Hnr.
  rewrite Htvi in Hvi. symmetry in Hvi. apply andb_true_iff in Hvi as [_ Hvalid].
  destruct (valid_at_dict _ _ Hvalid) as [d Hd].
  destruct (setup_from_invite_record_effect (after_status fromisoformat w) d)
    as (b & w7 & sl & Hrun & Hself7 & Ht7 & Hnet7).
  { rewrite Hself6. exact Hd. }
  unfold bind at 1. rewrite Hrun.
  destruct b.
  - unfold bind at 1.
    rewrite get_valid_token_no_refresh_record.
    2:{ rewrite Hself7, Hself6. exact Ha. }
    2:{ rewrite Hself7, Hself6. exact Hnr. }
    rewrite Hself7, Hself6. fold auth.
    assert (Hf : truthy (if valid_at (clock (ticks w7)) auth
                         then access_token_of auth else PNone) = false).
    { apply (Hfalsy Hnr). lia. }
    unfold bind at 1. rewrite Hf. unfold ret.
    do 3 eexists. split; [reflexivity|]. split; [exact Hf|].
    rewrite after_check_net_log, Hnet7, Hnet6. reflexivity.
  - unfold ret. do 3 eexists. split; [reflexivity|]. split; [exact Hv|].
    rewrite Hnet7, Hnet6. reflexivity.
Qed.

(** The first block of the driver.  It returns; memory is as before; and
    if it has sent the setup request then, on a clock that never goes
    back, the refresh record is present and both token records are
    expired for good. *)
Lemma setup_if_expired_effect (w : world) :
  let auth := auth_token_data (self w) in
  let refresh := refresh_token_data (self w) in
  let invite := invite_code_data (self w) in
  (forall i j : nat, (i <= j)%nat -> clock i <= clock j) ->
  inspectable auth = true ->
  inspectable refresh = true ->
  inspectable invite = true ->
  exists w' sl,
    setup_if_expired' w = (Returned tt, w')
    /\ self w' = self w
    /\ (ticks w <= ticks w')%nat
    /\ net_log w' = net_log w ++ sl
    /\ (sl = []
        \/ (truthy refresh = true
            /\ forall k, (ticks w' <= k)%nat ->
                         valid_at (clock k) auth = false
                         /\ valid_at (clock k) refresh = false)).
Proof.
  intros auth refresh invite Hmono Ha Hr Hi.
  destruct (check_token_status_flags w Ha Hr Hi)
    as (va & xa & vr & xr & vi & xi & ta & tr & ti & Hst & Hta & Htr & _ & Hxa & Hxr & Hvi).
  destruct (after_status_frame w) as (Hself6 & Hnet6 & Ht6).
  fold auth refresh invite in Hst, Hxa, Hxr, Hvi.
  unfold setup_if_expired. unfold bind at 1. rewrite Hst.
  unfold bind at 1.
  rewrite (proj1 (need_setup_eq _ _ _ _ _ _ _ _ _ _)).
  destruct (truthy xa && (truthy xr && (truthy invite && truthy vi))) eqn:Hneed.
  2:{ exists (after_status fromisoformat w), []. unfold ret.
      split; [reflexivity|]. split; [exact Hself6|]. split; [lia|].
      split; [now rewrite app_nil_r | now left]. }
  apply andb_true_iff in Hneed as [Htxa Hneed].
  apply andb_true_iff in Hneed as [Htxr Hneed].
  apply andb_true_iff in Hneed as [_ Htvi].
  rewrite Htxa in Hxa. symmetry in Hxa. apply andb_true_iff in Hxa as [_ Hxa].
  rewrite Htxr in Hxr. symmetry in Hxr. apply andb_true_iff in Hxr as [Htr1 Hxr].
  rewrite Htvi in Hvi. symmetry in Hvi. apply andb_true_iff in Hvi as [_ Hvalid].
  apply negb_true_iff in Hxa, Hxr.
  destruct (valid_at_dict _ _ Hvalid) as [d Hd].
  destruct (setup_from_invite_record_effect (after_status fromisoformat w) d)
    as (b & w7 & sl & Hrun & Hself7 & Ht7 & Hnet7).
  { rewrite Hself6. exact Hd. }
  unfold bind at 1. rewrite Hrun. unfold ret.
  exists w7, sl. split; [reflexivity|].
  split; [now rewrite Hself7|]. split; [lia|].
  split; [now rewrite Hnet7, Hnet6|].
  right. split; [exact Htr1|]. intros k Hk. split.
  - apply (valid_at_stays_false auth ta k Hmono); [lia | exact Hxa].
  - apply (valid_at_stays_false refresh tr k Hmono); [lia | exact Hxr].
Qed.

(** Showing and validating a token never involves the setup endpoint. *)
Lemma report_token_no_setup_request (token : pyval) (w : world) :
  exists l, net_log (snd (report_token remote unhashable_slice token w)) = net_log w ++ l
            /\ existsb is_setup_request l = false.
Proof.
  unfold report_token, bind at 1, lift.
  destruct (py_prefix unhashable_slice token) as [p|e]; simpl.
  - unfold bind at 1. rewrite validate_token_eq.
    exists [details_request token].
    destruct (verdict_of _); simpl; split; reflexivity.
  - exists []. split; [now rewrite app_nil_r | reflexivity].
Qed.

(** A refresh leaves an inspectable AccessRecord in memory. *)
Lemma refresh_auth_token_keeps_inspectable (w : world) :
  inspectable (auth_token_data (self w)) = true ->
  inspectable (auth_token_data (self (snd (refresh_auth_token' w)))) = true.
Proof.
  intros Ha.
  destruct (inspectable (refresh_token_data (self w))) eqn:Hi.
  2:{ rewrite (refresh_auth_token_not_inspectable w Hi). exact Ha. }
  unfold refresh_auth_token. exec; try exact Ha; reflexivity.
Qed.

(** The driver cannot use the tokens of a setup it has just performed.
    On a clock that never goes back, and with records loaded from the
    files that can be inspected, a run that has sent a setup request ends
    with no token: [setup_with_invite_code] writes the new tokens to the
    files, while the [get_valid_token] that follows still reads the
    records loaded at construction. *)
Theorem main_ends_without_token_after_setup (w w' : world) (o : outcome pyval) :
  let loaded := self (snd (init' w)) in
  (forall i j : nat, (i <= j)%nat -> clock i <= clock j) ->
  inspectable (auth_token_data loaded) = true ->
  inspectable (refresh_token_data loaded) = true ->
  inspectable (invite_code_data loaded) = true ->
  main' w = (o, w') ->
  exists l,
    net_log w' = net_log w ++ l
    /\ (existsb is_setup_request l = true ->
        exists v, o = Returned v /\ truthy v = false).
Proof.
  intros loaded Hmono Ha Hr Hi.
  destruct (init_eq w) as [(m & Hinit) | Hinit].
  2:{ unfold main. unfold bind at 1. rewrite Hinit. intros [= <- <-].
      exists []. split; [now rewrite app_nil_r | discriminate]. }
  unfold loaded in *. rewrite Hinit in Ha, Hr, Hi. simpl in Ha, Hr, Hi. clear loaded.
  set (W0 := {| self := m; fs := fs w; net_log := net_log w; ticks := ticks w;
                disk_ops := disk_ops w |}) in *.
  destruct (setup_if_expired_effect W0 Hmono Ha Hr Hi)
    as (W1 & sl & Hsetup & Hself1 & Ht1 & Hnet1 & Hcase).
  change (net_log W0) with (net_log w) in Hnet1.
  change (self W0) with m in Hself1, Hcase.
  unfold main. unfold bind at 1. rewrite Hinit.
  unfold bind at 1. rewrite Hsetup.
  assert (Ha1 : inspectable (auth_token_data (self W1)) = true) by now rewrite Hself1.
  assert (Hr1 : inspectable (refresh_token_data (self W1)) = true) by now rewrite Hself1.
  assert (Hi1 : inspectable (invite_code_data (self W1)) = true) by now rewrite Hself1.
  destruct Hcase as [-> | (Htr & Hexpired)].
  - (* no setup so far *)
    rewrite app_nil_r in Hnet1.
    destruct (get_valid_token_result W1 Ha1 Hr1) as (v & W2 & Hrun & _).
    destruct (get_valid_token_no_setup_request W1) as (l1 & Hl1 & Hno1).
    rewrite Hrun in Hl1. simpl in Hl1. rewrite Hnet1 in Hl1.
    unfold bind at 1. rewrite Hrun.
    destruct (truthy v) eqn:Hv.
    + destruct (report_token_no_setup_request v W2) as (l2 & Hl2 & Hno2).
      intros Hmain. rewrite Hmain in Hl2. simpl in Hl2.
      exists (l1 ++ l2). split; [rewrite Hl2, Hl1; now rewrite app_assoc|].
      rewrite existsb_app, Hno1, Hno2. discriminate.
    + assert (Hframe : only_access_record_touched W1 W2).
      { pose proof (get_valid_token_effect only_access_record_touched) as E.
        specialize (E (fun w0 => ltac:(repeat split; auto))
                      (fun w0 w1 H => H) refresh_auth_token_frame W1).
        now rewrite Hrun in E. }
      destruct Hframe as (Hinv2 & Href2 & _).
      assert (Ha2 : inspectable (auth_token_data (self W2)) = true).
      { pose proof (get_valid_token_effect
                      (fun w0 w1 => inspectable (auth_token_data (self w0)) = true ->
                                    inspectable (auth_token_data (self w1)) = true)) as E.
        specialize (E (fun w0 H => H) (fun w0 w1 H => H)
                      refresh_auth_token_keeps_inspectable W1 Ha1).
        now rewrite Hrun in E. }
      destruct (retry_with_invite_effect W2 v) as (v' & W3 & sl' & Hretry & Hv' & Hnet3).
      * exact Ha2.
      * now rewrite Href2.
      * now rewrite Hinv2.
      * exact Hv.
      * intros Hnr k Hk. rewrite Href2 in Hnr.
        rewrite (get_valid_token_no_refresh_record W1 Ha1 Hnr) in Hrun.
        injection Hrun as Hv2 HW2. subst W2. rewrite after_check_self.
        rewrite <- Hv2 in Hv. rewrite after_check_self in Ha2.
        destruct (valid_at (clock (ticks W1)) (auth_token_data (self W1))) eqn:Hvalid.
        -- destruct (valid_at (clock k) _); [exact Hv | reflexivity].
        -- rewrite (valid_at_stays_false _ (ticks W1) k Hmono); [reflexivity | | exact Hvalid].
           pose proof (after_check_ticks (auth_token_data (self W1)) W1). lia.
      * rewrite Hretry. intros [= <- <-].
        exists (l1 ++ sl'). split; [rewrite Hnet3, Hl1; now rewrite app_assoc|].
        intros _. eauto.
  - (* the setup has been attempted: both tokens stay expired *)
    destruct (get_valid_token_gives_up W1 Ha1 Hr1) as [Hrun Hnet2].
    + rewrite Hself1. apply Hexpired. lia.
    + rewrite Hself1. apply Hexpired.
      pose proof (after_check_ticks (auth_token_data m) W1). lia.
    + set (W2 := after_check fromisoformat (refresh_token_data (self W1))
                   (after_check fromisoformat (auth_token_data (self W1)) W1)) in *.
      assert (Hself2 : self W2 = m).
      { unfold W2. now rewrite !after_check_self. }
      unfold bind at 1. rewrite Hrun. change (truthy PNone) with false. cbv iota.
      destruct (retry_with_invite_effect W2 PNone) as (v' & W3 & sl' & Hretry & Hv' & Hnet3).
      * now rewrite Hself2.
      * now rewrite Hself2.
      * now rewrite Hself2.
      * reflexivity.
      * rewrite Hself2, Htr. discriminate.
      * rewrite Hretry. intros [= <- <-].
        exists (sl ++ sl'). split.
        -- rewrite Hnet3, Hnet2, Hnet1. now rewrite app_assoc.
        -- intros _. eauto.
Qed.

End Properties.

(** ** The scenarios, run *)

Import Scenario.

Lemma get_valid_token_decision_order_witness :
  inspectable stale_access = true
  /\ inspectable fresh_refresh = true
  /\ isValid Calendar.fromisoformat now stale_access = false
  /\ isValid Calendar.fromisoformat now fresh_refresh = true
  /\ fst (run_get_valid_token steady_clock remote_ok renewable) = Returned (PStr "access-2").
Proof.
  do 4 (split; [vm_compute; reflexivity|]).
  destruct (get_valid_token_decision_order steady_clock remote_ok disk_ok untorn
              Calendar.fromisoformat Calendar.isoformat Calendar.float_microseconds
              renewable ltac:(vm_compute; reflexivity) ltac:(vm_compute; reflexivity))
    as (_ & Hrefresh & _).
  destruct (Hrefresh ltac:(vm_compute; reflexivity) ltac:(vm_compute; reflexivity))
    as (ok & w3 & Hrun & Hget & _).
  unfold run_get_valid_token. rewrite Hget.
  vm_compute in Hrun. injection Hrun as <- <-. vm_compute. reflexivity.
Defined.

(** C2, counterexample.  With an expired access token and a good refresh
    token, one call of [get_valid_token] sends the refresh request and then
    the validation request: two round trips. *)
Lemma get_valid_token_two_round_trips :
  net_log renewable = []
  /\ net_log (snd (run_get_valid_token steady_clock remote_ok renewable))
     = [token_request (PStr "refresh-1"); details_request (PStr "access-2")]
  /\ fst (run_get_valid_token steady_clock remote_ok renewable) = Returned (PStr "access-2").
Proof. vm_compute. repeat split; reflexivity. Qed.

(** C3, the failing case.  The server answers the setup request with 200
    and a body that has [token] but no [refreshToken].  The call returns
    [False], yet the AccessRecord is already in its file: the body is read
    for [refreshToken] only after the first write.  No RefreshRecord is
    written, the invite file stays and the in-memory records are
    untouched. *)
Theorem setup_with_invite_code_partial_write :
  let w := set_fs (<[INVITE_CODE_FILE := FJson (PDict [("invite_code", PStr "INVITE-1")])]> ∅)
             blank in
  let r := run_setup_with_invite_code steady_clock remote_no_refresh_token
             (PStr "INVITE-1") w in
  remote_no_refresh_token [] (setup_request (PStr "INVITE-1"))
    = NetResponse 200 (Some (PDict [("token", PStr "access-1")]))
  /\ fst r = Returned false
  /\ fs w !! AUTH_TOKEN_FILE = None
  /\ fs (snd r) !! AUTH_TOKEN_FILE =
       Some (FJson (access_record (PStr "access-1") "2026-11-03T10:20:30+00:00"
                      "2026-11-04T10:20:30+00:00"))
  /\ fs (snd r) !! REFRESH_TOKEN_FILE = None
  /\ fs (snd r) !! INVITE_CODE_FILE = fs w !! INVITE_CODE_FILE
  /\ self (snd r) = self w.
Proof. vm_compute. repeat split; reflexivity. Qed.

(** C5.  [check_token_status] computes [valid] and [expired] by two
    calls of [_has_not_expired], each with its own reading of the clock,
    and so misses [expired = exists and not valid]: here the access token
    expires between the reading behind [valid] and the one behind
    [expired], taken one microsecond later, and the entry says valid and
    expired at once. *)
Lemma check_token_status_valid_and_expired :
  fst (run_check_token_status ticking_clock closing)
    = Returned (PDict [("auth_token", status_entry true (PBool true) (PBool true));
                       ("refresh_token", status_entry false (PDict []) (PDict []));
                       ("invite_code", status_entry false (PDict []) (PDict []))])
  /\ ~ status_consistent true (PBool true) (PBool true).
Proof.
  split; [vm_compute; reflexivity|].
  intros [H _]. discriminate H.
Qed.

Lemma check_token_status_projection_witness :
  (inspectable stale_access = true
   /\ inspectable fresh_refresh = true
   /\ inspectable (PDict []) = true)
  /\ exists st w',
       run_check_token_status steady_clock renewable = (Returned st, w')
       /\ self w' = self renewable /\ fs w' = fs renewable
       /\ net_log w' = net_log renewable.
Proof.
  split; [repeat split; vm_compute; reflexivity|].
  destruct (check_token_status_projection steady_clock Calendar.fromisoformat renewable
              ltac:(vm_compute; reflexivity) ltac:(vm_compute; reflexivity)
              ltac:(vm_compute; reflexivity)
              ltac:(intros k _; reflexivity) ltac:(intros k _; reflexivity)
              ltac:(intros k _; reflexivity))
    as (va & xa & vr & xr & vi & xi & w' & Hrun & _ & _ & _ & Hself & Hfs & Hnet & _).
  eexists. exists w'. split; [exact Hrun|]. auto.
Defined.

Lemma no_valid_refresh_record_no_network_witness :
  (inspectable stale_refresh = true
   /\ inspectable stale_access = true
   /\ (forall k : nat, isValid Calendar.fromisoformat (steady_clock k) stale_refresh = false)
   /\ isValid Calendar.fromisoformat now stale_access = false)
  /\ (exists w', run_refresh_auth_token steady_clock remote_ok lapsed = (Returned false, w')
                 /\ net_log w' = net_log lapsed)
  /\ (exists w', run_get_valid_token steady_clock remote_ok lapsed = (Returned PNone, w')
                 /\ net_log w' = net_log lapsed).
Proof.
  split; [repeat split; try intros k; vm_compute; reflexivity|].
  destruct (no_valid_refresh_record_no_network steady_clock remote_ok disk_ok untorn
              Calendar.fromisoformat Calendar.isoformat Calendar.float_microseconds lapsed
              ltac:(vm_compute; reflexivity)
              ltac:(intros k _; vm_compute; reflexivity))
    as [Hrefresh Hget].
  split; [exact Hrefresh|].
  apply Hget; vm_compute; reflexivity.
Defined.

Lemma refresh_auth_token_failed_validation_keeps_token_witness :
  let kept := access_record (PStr "access-2") "2026-11-03T10:20:30+00:00"
                "2026-11-03T11:20:30+00:00" in
  verdict_of (details_of (remote_disowns [token_request (PStr "refresh-1")]
                            (details_request (PStr "access-2")))) = Returned false
  /\ exists w',
       run_refresh_auth_token steady_clock remote_disowns renewable = (Returned false, w')
       /\ auth_token_data (self w') = kept
       /\ fs w' !! AUTH_TOKEN_FILE = Some (FJson kept).
Proof.
  split; [vm_compute; reflexivity|].
  destruct (refresh_auth_token_failed_validation_keeps_token steady_clock remote_disowns
              disk_ok untorn Calendar.fromisoformat Calendar.isoformat Calendar.float_microseconds
              renewable (PStr "refresh-1") (PStr "access-2") 200 (3600 * US_PER_SECOND)
              [("token", PStr "access-2"); ("expiresIn", PInt 3600)]
              ltac:(vm_compute; reflexivity) ltac:(vm_compute; reflexivity)
              ltac:(vm_compute; reflexivity) ltac:(vm_compute; reflexivity)
              ltac:(vm_compute; reflexivity) ltac:(vm_compute; reflexivity)
              ltac:(vm_compute; reflexivity) ltac:(vm_compute; reflexivity)
              ltac:(vm_compute; discriminate))
    as (w' & Hrun & Hmem & Hfile).
  exists w'. split; [exact Hrun|]. split.
  - rewrite Hmem. vm_compute. reflexivity.
  - rewrite (Hfile eq_refl). vm_compute. reflexivity.
Defined.

(** C8, counterexample.  The details endpoint answers 201, a 2xx status,
    with [validToken] true: [validate_token] returns [False]. *)
Lemma validate_token_ignores_201 :
  remote_201 [] (details_request (PStr "access-1"))
    = NetResponse 201 (Some (PDict [("validToken", PBool true)]))
  /\ fst (validate_token remote_201 (PStr "access-1") blank) = Returned false.
Proof. vm_compute. split; reflexivity. Qed.

Lemma setup_with_invite_code_records_witness :
  fst (run_setup_with_invite_code steady_clock remote_ok (PStr "INVITE-1") blank)
    = Returned true
  /\ fs (snd (run_setup_with_invite_code steady_clock remote_ok (PStr "INVITE-1") blank))
       !! AUTH_TOKEN_FILE
     = Some (FJson (access_record (PStr "access-1") "2026-11-03T10:20:30+00:00"
                      "2026-11-03T11:20:30+00:00"))
  /\ fs (snd (run_setup_with_invite_code steady_clock remote_ok (PStr "INVITE-1") blank))
       !! REFRESH_TOKEN_FILE
     = Some (FJson (refresh_record (PStr "refresh-1") "2026-11-03T10:20:30+00:00"
                      "2026-12-03T10:20:30+00:00")).
Proof.
  destruct (run_setup_with_invite_code steady_clock remote_ok (PStr "INVITE-1") blank)
    as [o w'] eqn:Hrun.
  assert (Ho : o = Returned true).
  { vm_compute in Hrun. injection Hrun as <- _. reflexivity. }
  subst o. split; [reflexivity|].
  destruct (setup_with_invite_code_records steady_clock remote_ok disk_ok untorn
              Calendar.isoformat Calendar.float_microseconds
              (PStr "INVITE-1") expiration_days_default blank w' Hrun)
    as (st & td & token & refresh_token & seconds & days
        & Hrem & Htok & Hrtok & _ & _ & _ & Hsec & _ & Hdays & Hauth & Hrefresh).
  vm_compute in Hrem. injection Hrem as <- <-.
  vm_compute in Htok. injection Htok as <-.
  vm_compute in Hrtok. injection Hrtok as <-.
  rewrite (Hsec 3600 eq_refl) in Hauth. rewrite (Hdays eq_refl) in Hrefresh.
  simpl snd. rewrite (Hauth eq_refl), (Hrefresh eq_refl).
  split; vm_compute; reflexivity.
Defined.

Lemma setup_with_invite_code_keeps_memory_witness :
  let w' := snd (run_setup_with_invite_code steady_clock remote_ok (PStr "INVITE-1") blank) in
  fst (run_setup_with_invite_code steady_clock remote_ok (PStr "INVITE-1") blank)
    = Returned true
  /\ fs w' !! AUTH_TOKEN_FILE <> None
  /\ self w' = self blank
  /\ exists w'', run_get_valid_token steady_clock remote_ok w' = (Returned PNone, w'')
                 /\ net_log w'' = net_log w'.
Proof.
  intros w'.
  split; [vm_compute; reflexivity|].
  split; [vm_compute; discriminate|].
  destruct (setup_with_invite_code_keeps_memory steady_clock remote_ok disk_ok untorn
              Calendar.fromisoformat Calendar.isoformat Calendar.float_microseconds
              (PStr "INVITE-1") expiration_days_default blank)
    as (Hself & _ & Hafter).
  split; [exact Hself|].
  destruct (Hafter eq_refl eq_refl eq_refl) as [Hget _].
  exact Hget.
Defined.

(** ** The further properties, run *)

Import Runs.

Lemma refresh_auth_token_fails_without_trace_witness :
  net_log (snd (run_refresh_auth_token steady_clock unreachable renewable))
    = [token_request (PStr "refresh-1")]
  /\ self (snd (run_refresh_auth_token steady_clock unreachable renewable)) = self renewable
  /\ fs (snd (run_refresh_auth_token steady_clock unreachable renewable)) = fs renewable
  /\ fst (run_refresh_auth_token steady_clock unreachable renewable) <> Returned true.
Proof.
  split; [vm_compute; reflexivity|].
  apply (refresh_auth_token_fails_without_trace steady_clock unreachable disk_ok untorn
           Calendar.fromisoformat Calendar.isoformat Calendar.float_microseconds renewable).
  vm_compute. lia.
Defined.

Lemma refresh_auth_token_true_means_confirmed_witness :
  fst (run_refresh_auth_token steady_clock remote_ok renewable) = Returned true
  /\ exists rt tok,
       net_log (snd (run_refresh_auth_token steady_clock remote_ok renewable))
       = (net_log renewable ++ [token_request rt; details_request tok])%list
       /\ access_token_of
            (auth_token_data (self (snd (run_refresh_auth_token steady_clock remote_ok
                                           renewable)))) = tok.
Proof.
  destruct (run_refresh_auth_token steady_clock remote_ok renewable) as [o w'] eqn:Hrun.
  assert (Ho : o = Returned true).
  { vm_compute in Hrun. injection Hrun as <- _. reflexivity. }
  subst o. split; [reflexivity|].
  destruct (refresh_auth_token_true_means_confirmed steady_clock remote_ok disk_ok untorn
              Calendar.fromisoformat Calendar.isoformat Calendar.float_microseconds
              renewable w' Hrun)
    as (rt & st & td & tok & created & expiration & _ & _ & _ & _ & _ & _ & _ & Hlog & Hmem).
  exists rt, tok. simpl snd. split; [exact Hlog|]. rewrite Hmem. reflexivity.
Defined.

Lemma token_calls_keep_file_and_memory_in_step_witness :
  access_record_in_step renewable_in_step
  /\ access_record_in_step
       (snd (run_refresh_auth_token steady_clock remote_ok renewable_in_step))
  /\ access_record_in_step
       (snd (run_get_valid_token steady_clock remote_ok renewable_in_step)).
Proof.
  split; [vm_compute; reflexivity|].
  apply (token_calls_keep_file_and_memory_in_step steady_clock remote_ok disk_ok untorn
           Calendar.fromisoformat Calendar.isoformat Calendar.float_microseconds
           renewable_in_step); vm_compute; reflexivity.
Defined.

Lemma has_not_expired_stays_false_witness :
  fst (_has_not_expired ticking_clock Calendar.fromisoformat closing_access (tick blank))
    = Returned false
  /\ fst (_has_not_expired ticking_clock Calendar.fromisoformat closing_access
            (tick (tick blank)))
     = Returned false.
Proof.
  split; [vm_compute; reflexivity|].
  apply (has_not_expired_stays_false ticking_clock Calendar.fromisoformat closing_access
           (tick blank) (tick (tick blank))).
  - vm_compute. reflexivity.
  - vm_compute. discriminate.
  - vm_compute. reflexivity.
Defined.

Lemma get_valid_token_twice_witness :
  exists w1,
    run_get_valid_token steady_clock remote_ok renewable = (Returned (PStr "access-2"), w1)
    /\ run_get_valid_token steady_clock remote_ok w1 = (Returned (PStr "access-2"), tick w1)
    /\ net_log (tick w1) = net_log w1.
Proof.
  destruct (run_get_valid_token steady_clock remote_ok renewable) as [o w1] eqn:Hrun.
  assert (Ho : o = Returned (PStr "access-2")).
  { vm_compute in Hrun. injection Hrun as <- _. reflexivity. }
  subst o. exists w1. split; [reflexivity|].
  assert (Hvalid : isValid Calendar.fromisoformat (steady_clock (ticks w1))
                     (auth_token_data (self w1)) = true).
  { assert (Hw : w1 = snd (run_get_valid_token steady_clock remote_ok renewable))
      by now rewrite Hrun.
    rewrite Hw. vm_compute. reflexivity. }
  destruct (get_valid_token_twice steady_clock remote_ok disk_ok untorn
              Calendar.fromisoformat Calendar.isoformat Calendar.float_microseconds
              renewable w1 (PStr "access-2")
              ltac:(vm_compute; reflexivity) ltac:(vm_compute; reflexivity)
              Hrun eq_refl Hvalid)
    as (Hsecond & Hlog & _).
  split; [exact Hsecond | exact Hlog].
Defined.

Lemma get_valid_token_renews_witness :
  exists w',
    run_get_valid_token steady_clock remote_ok renewable = (Returned (PStr "access-2"), w')
    /\ net_log w' = [token_request (PStr "refresh-1"); details_request (PStr "access-2")]
    /\ fs w' !! AUTH_TOKEN_FILE
       = Some (FJson (access_record (PStr "access-2") "2026-11-03T10:20:30+00:00"
                        "2026-11-03T11:20:30+00:00")).
Proof.
  destruct (get_valid_token_renews steady_clock remote_ok disk_ok untorn
              Calendar.fromisoformat Calendar.isoformat Calendar.float_microseconds
              renewable (PStr "refresh-1") (PStr "access-2") 200 (3600 * US_PER_SECOND)
              [("token", PStr "access-2"); ("expiresIn", PInt 3600)]
              ltac:(vm_compute; reflexivity) ltac:(vm_compute; reflexivity)
              ltac:(vm_compute; reflexivity) ltac:(vm_compute; reflexivity)
              ltac:(vm_compute; reflexivity) ltac:(vm_compute; reflexivity)
              ltac:(vm_compute; reflexivity) ltac:(vm_compute; reflexivity)
              ltac:(vm_compute; reflexivity) ltac:(vm_compute; reflexivity)
              ltac:(vm_compute; reflexivity) ltac:(vm_compute; reflexivity))
    as (w' & Hrun & _ & Hlog & Hfile).
  exists w'. split; [exact Hrun|]. split; [exact Hlog|].
  rewrite (Hfile eq_refl). vm_compute. reflexivity.
Defined.


Lemma check_token_status_reads_only_witness :
  exists st w',
    run_check_token_status ticking_clock (world_of (PDict []) fresh_refresh no_expiration)
      = (Returned st, w')
    /\ py_getitem st "auth_token" = Returned (status_entry true (PBool false) (PBool true))
    /\ net_log w' = [] /\ fs w' = ∅.
Proof.
  destruct (check_token_status_reads_only ticking_clock Calendar.fromisoformat
              (world_of (PDict []) fresh_refresh no_expiration)
              ltac:(vm_compute; reflexivity) ltac:(vm_compute; reflexivity)
              ltac:(vm_compute; reflexivity))
    as (va & xa & vr & xr & vi & xi & w' & Hrun & Hua & _ & _ & _ & Hfs & Hlog & _).
  destruct (Hua eq_refl eq_refl) as [-> ->].
  eexists. exists w'. split; [exact Hrun|].
  split; [reflexivity|]. split; [exact Hlog | exact Hfs].
Defined.

Lemma main_ends_without_token_after_setup_witness :
  existsb is_setup_request (net_log (snd (run_main steady_clock remote_ok first_run))) = true
  /\ fs (snd (run_main steady_clock remote_ok first_run)) !! AUTH_TOKEN_FILE <> None
  /\ exists v, fst (run_main steady_clock remote_ok first_run) = Returned v
               /\ truthy v = false.
Proof.
  split; [vm_compute; reflexivity|]. split; [vm_compute; discriminate|].
  destruct (main_ends_without_token_after_setup steady_clock remote_ok disk_ok untorn
              Calendar.fromisoformat Calendar.isoformat Calendar.float_microseconds
              TypeError first_run
              (snd (run_main steady_clock remote_ok first_run))
              (fst (run_main steady_clock remote_ok first_run))
              ltac:(intros i j _; unfold steady_clock; lia)
              ltac:(vm_compute; reflexivity) ltac:(vm_compute; reflexivity)
              ltac:(vm_compute; reflexivity)
              ltac:(unfold run_main; apply surjective_pairing))
    as (l & Hlog & Hend).
  apply Hend.
  assert (Hl : l = net_log (snd (run_main steady_clock remote_ok first_run))).
  { rewrite Hlog. reflexivity. }
  rewrite Hl. vm_compute. reflexivity.
Defined.
